(** * A model of the daemonized Bluetooth GPS tracker (testsend7.py)

    The development embeds the daemon script in Rocq: the Python
    primitives it relies on (text, [int], [json.dumps], UTF-8 encoding),
    the world it acts on (files, processes, sockets), the methods of
    [DaemonGPSTracker], the control commands [stop_daemon] and
    [status_daemon], and the command-line entry point.  The properties of
    the design document are then stated and settled against these
    definitions. *)

From Stdlib Require Import ZArith NArith Ascii String List Lia Bool.
From Stdlib Require Import DecimalString DecimalPos.
From Stdlib.Strings Require Import Byte.
From stdpp Require Import base option list gmap strings.

Local Open Scope string_scope.
Local Open Scope Z_scope.

(** ** Python primitives *)

Module Py.

(** Exceptions the script can meet.  [SystemExit] is the only one that is
    not a subclass of [Exception]: an [except Exception] clause lets it
    through, a bare [except:] catches it. *)
Inductive exn :=
| SystemExit (code : Z)
| FileNotFoundError
| ProcessLookupError
| ValueError
| OverflowError
| TypeError
| AttributeError
| KeyError
| UnicodeEncodeError
| StopIteration
| OSError.

Definition is_Exception (e : exn) : bool :=
  match e with SystemExit _ => false | _ => true end.

(** Result of a computation that may raise. *)
Inductive res (A : Type) :=
| Ret (a : A)
| Raise (e : exn).
Arguments Ret {A} a.
Arguments Raise {A} e.

Definition bind {A B} (m : res A) (k : A → res B) : res B :=
  match m with Ret a => k a | Raise e => Raise e end.

Notation "x ←! m ; k" := (bind m (λ x, k))
  (at level 20, m at level 100, k at level 200, only parsing).

(** A piece of the script over a state [S]: it may change the state and
    return or raise. *)
Definition M (S A : Type) : Type := S → res A * S.

Definition ret {S A} (a : A) : M S A := λ s, (Ret a, s).
Definition raise {S A} (e : exn) : M S A := λ s, (Raise e, s).
Definition mbind {S A B} (m : M S A) (k : A → M S B) : M S B :=
  λ s, match m s with
       | (Ret a, s') => k a s'
       | (Raise e, s') => (Raise e, s')
       end.

Notation "x ←$ m ; k" := (mbind m (λ x, k))
  (at level 20, m at level 100, k at level 200, only parsing).
Notation "m ;$ k" := (mbind m (λ _, k))
  (at level 100, k at level 200, right associativity, only parsing).

(** [try: m except <catches>: h] *)
Definition try_except {S A} (m : M S A) (catches : exn → bool)
    (h : exn → M S A) : M S A :=
  λ s, match m s with
       | (Raise e, s') => if catches e then h e s' else (Raise e, s')
       | r => r
       end.

(** [try: m] followed by several [except] clauses: the first clause
    that matches handles the exception, and what its handler raises is
    not offered to the clauses after it. *)
Fixpoint handle {S A} (clauses : list ((exn → bool) * (exn → M S A)))
    (e : exn) : M S A :=
  match clauses with
  | [] => raise e
  | (catches, h) :: r => if catches e then h e else handle r e
  end.

Definition try_excepts {S A} (m : M S A)
    (clauses : list ((exn → bool) * (exn → M S A))) : M S A :=
  λ s, match m s with
       | (Raise e, s') => handle clauses e s'
       | r => r
       end.

(** A bare [except:] catches everything. *)
Definition bare : exn → bool := λ _, true.

(** [except FileNotFoundError:] *)
Definition is_FileNotFoundError (e : exn) : bool :=
  match e with FileNotFoundError => true | _ => false end.

(** [except ProcessLookupError:] *)
Definition is_ProcessLookupError (e : exn) : bool :=
  match e with ProcessLookupError => true | _ => false end.

(** A pure step that may raise; the state is unchanged when it does. *)
Definition lift {S} (f : S → res S) : M S unit :=
  λ s, match f s with
       | Ret s' => (Ret tt, s')
       | Raise e => (Raise e, s)
       end.

Definition of_res {S A} (r : res A) : M S A := λ s, (r, s).

Definition nl : string := String (ascii_of_N 10) EmptyString.

(** [str.isspace] on the ASCII range: TAB..CR, FS..US and the space. *)
Definition is_space (c : ascii) : bool :=
  let n := N_of_ascii c in
  ((9 <=? n)%N && (n <=? 13)%N) || ((28 <=? n)%N && (n <=? 32)%N).

Fixpoint lstrip (s : string) : string :=
  match s with
  | String c r => if is_space c then lstrip r else s
  | EmptyString => EmptyString
  end.

Fixpoint rstrip (s : string) : string :=
  match s with
  | EmptyString => EmptyString
  | String c r =>
      match rstrip r with
      | EmptyString => if is_space c then EmptyString else String c EmptyString
      | r' => String c r'
      end
  end.

(** [s.strip()] *)
Definition strip (s : string) : string := rstrip (lstrip s).

Definition digit_of (c : ascii) : option Z :=
  let n := N_of_ascii c in
  if ((48 <=? n)%N && (n <=? 57)%N)%bool then Some (Z.of_N n - 48) else None.

(** What the scanner of [int] saw last: nothing yet, a digit, or an
    underscore.  An underscore is legal only between two digits. *)
Inductive scan := ScanStart | ScanDigit | ScanUnderscore.

Fixpoint int_digits (prev : scan) (acc : Z) (s : string) : option Z :=
  match s with
  | EmptyString => match prev with ScanDigit => Some acc | _ => None end
  | String c r =>
      match digit_of c with
      | Some d => int_digits ScanDigit (10 * acc + d) r
      | None =>
          if Ascii.eqb c "_"%char
          then match prev with
               | ScanDigit => int_digits ScanUnderscore acc r
               | _ => None
               end
          else None
      end
  end.

(** [int(s)] for a text of the ASCII range: surrounding white space, an
    optional sign, decimal digits with single underscores between them.
    Anything else raises [ValueError]. *)
Definition int (s : string) : res Z :=
  let body (t : string) := int_digits ScanStart 0 t in
  let r := match strip s with
           | String "-" t => Z.opp <$> body t
           | String "+" t => body t
           | t => body t
           end in
  match r with Some z => Ret z | None => Raise ValueError end.

(** [str(n)] for an integer. *)
Definition str_int (n : Z) : string := NilZero.string_of_int (Z.to_int n).

(** [s.lower()] on the ASCII range. *)
Definition lower_char (c : ascii) : ascii :=
  let n := N_of_ascii c in
  if ((65 <=? n)%N && (n <=? 90)%N)%bool then ascii_of_N (n + 32) else c.

Fixpoint lower (s : string) : string :=
  match s with
  | EmptyString => EmptyString
  | String c r => String (lower_char c) (lower r)
  end.

(** A Python [str] that may hold any code point is a list of code points;
    [cps] reads an ASCII literal as such a text. *)
Definition cps (s : string) : list N := N_of_ascii <$> list_ascii_of_string s.

(** A Python float, identified by the text [float.__repr__] prints for it,
    which is made of digits, a point, an exponent mark and signs. *)
Inductive fchar :=
| F0 | F1 | F2 | F3 | F4 | F5 | F6 | F7 | F8 | F9
| FDot | FExp | FMinus | FPlus.

Definition fchar_code (c : fchar) : N :=
  match c with
  | F0 => 48 | F1 => 49 | F2 => 50 | F3 => 51 | F4 => 52
  | F5 => 53 | F6 => 54 | F7 => 55 | F8 => 56 | F9 => 57
  | FDot => 46 | FExp => 101 | FMinus => 45 | FPlus => 43
  end%N.

Inductive pyfloat :=
| FFinite (repr : list fchar)
| FNaN
| FPosInf
| FNegInf.

(** The values an attribute of a gpsd report can hold: the scalars of the
    JSON it was read from, or some other object. *)
Inductive pyval :=
| PNone
| PBool (b : bool)
| PInt (n : Z)
| PFloat (f : pyfloat)
| PStr (s : list N)
| PObject.

#[export] Instance fchar_eq_dec : EqDecision fchar.
Proof. solve_decision. Defined.
#[export] Instance pyfloat_eq_dec : EqDecision pyfloat.
Proof. solve_decision. Defined.
#[export] Instance pyval_eq_dec : EqDecision pyval.
Proof. solve_decision. Defined.

End Py.

(** *** [json.dumps] and [str.encode] *)

Module Json.
Import Py.
Local Open Scope list_scope.

Definition hexdigit (n : N) : N := (if n <? 10 then 48 + n else 87 + n)%N.

(** ['\\u{0:04x}'.format(n)] *)
Definition u4 (n : N) : list N :=
  [92; 117;
   hexdigit (N.land (N.shiftr n 12) 15); hexdigit (N.land (N.shiftr n 8) 15);
   hexdigit (N.land (N.shiftr n 4) 15); hexdigit (N.land n 15)]%N.

(** The replacement [json.encoder] makes for one character of a string
    (its [ESCAPE_ASCII] pattern with [ESCAPE_DCT]): the printable ASCII
    characters but the quote and the backslash stand for themselves, the
    others are escaped, beyond the basic plane as a surrogate pair. *)
Definition escape_char (c : N) : list N :=
  (if c =? 34 then [92; 34]
   else if c =? 92 then [92; 92]
   else if c =? 8 then [92; 98]
   else if c =? 12 then [92; 102]
   else if c =? 10 then [92; 110]
   else if c =? 13 then [92; 114]
   else if c =? 9 then [92; 116]
   else if (32 <=? c) && (c <=? 126) then [c]
   else if c <? 65536 then u4 c
   else
     let n := c - 65536 in
     let s1 := N.lor 55296 (N.land (N.shiftr n 10) 1023) in
     let s2 := N.lor 56320 (N.land n 1023) in
     u4 s1 ++ u4 s2)%N.

(** [encode_basestring_ascii]: the quoted, escaped string. *)
Definition encode_string (s : list N) : list N :=
  [34%N] ++ concat (escape_char <$> s) ++ [34%N].

Definition encode_float (f : pyfloat) : list N :=
  match f with
  | FFinite repr => fchar_code <$> repr
  | FNaN => cps "NaN"
  | FPosInf => cps "Infinity"
  | FNegInf => cps "-Infinity"
  end.

(** The text of one value; an object the encoder does not know raises
    [TypeError]. *)
Definition encode_value (v : pyval) : res (list N) :=
  match v with
  | PNone => Ret (cps "null")
  | PBool true => Ret (cps "true")
  | PBool false => Ret (cps "false")
  | PInt n => Ret (cps (str_int n))
  | PFloat f => Ret (encode_float f)
  | PStr s => Ret (encode_string s)
  | PObject => Raise TypeError
  end.

Definition encode_item (kv : string * pyval) : res (list N) :=
  v ←! encode_value kv.2 ;
  Ret (encode_string (cps kv.1) ++ cps ": " ++ v).

Fixpoint encode_items (d : list (string * pyval)) : res (list (list N)) :=
  match d with
  | [] => Ret []
  | kv :: r =>
      x ←! encode_item kv ;
      xs ←! encode_items r ;
      Ret (x :: xs)
  end.

(** [', '.join(items)] *)
Fixpoint join (items : list (list N)) : list N :=
  match items with
  | [] => []
  | [x] => x
  | x :: r => x ++ cps ", " ++ join r
  end.

(** [json.dumps(d)] for a dict with text keys, in insertion order, with
    the default separators and [ensure_ascii]. *)
Definition dumps (d : list (string * pyval)) : res (list N) :=
  items ←! encode_items d ;
  Ret (cps "{" ++ join items ++ cps "}").

Definition byte_of_N (n : N) : byte := default x00 (of_N n).

(** UTF-8 for one code point; a lone surrogate cannot be encoded. *)
Definition utf8_char (c : N) : res (list byte) :=
  (if c <? 128 then Ret [byte_of_N c]
   else if c <? 2048 then
     Ret [byte_of_N (N.lor 192 (N.shiftr c 6));
          byte_of_N (N.lor 128 (N.land c 63))]
   else if c <? 65536 then
     if (55296 <=? c) && (c <=? 57343) then Raise UnicodeEncodeError
     else
       Ret [byte_of_N (N.lor 224 (N.shiftr c 12));
            byte_of_N (N.lor 128 (N.land (N.shiftr c 6) 63));
            byte_of_N (N.lor 128 (N.land c 63))]
   else
     Ret [byte_of_N (N.lor 240 (N.shiftr c 18));
          byte_of_N (N.lor 128 (N.land (N.shiftr c 12) 63));
          byte_of_N (N.lor 128 (N.land (N.shiftr c 6) 63));
          byte_of_N (N.lor 128 (N.land c 63))])%N.

(** [s.encode('utf-8')] *)
Fixpoint encode_utf8 (s : list N) : res (list byte) :=
  match s with
  | [] => Ret []
  | c :: r =>
      x ←! utf8_char c ;
      xs ←! encode_utf8 r ;
      Ret (x ++ xs)
  end.

End Json.

(** ** The world the script acts on *)

Module Sys.
Import Py.

(** What a process does with a termination signal before the grace period
    of [stop_daemon] is over: the daemon's handler finishes its cleanup
    (removing the PID file it was given) and the process exits; the
    process exits without touching any file; or it is still running. *)
Inductive reaction :=
| CleansUp (pid_file : string)
| Dies
| Lingers.

Inductive level := LInfo | LWarning | LError.

(** The lines the daemon writes to its log. *)
Inductive logmsg :=
| MsgForkFailed
| MsgSecondForkFailed
| MsgDaemonStarted
| MsgSignal (signum : Z)
| MsgDiscoverable
| MsgDiscoverableError
| MsgSdpRegistered
| MsgSdpError
| MsgListening (channel : Z)
| MsgBluetoothError
| MsgBluetoothSetupFailed
| MsgGpsInitialized
| MsgGpsError
| MsgWaiting
| MsgConnected (peer : string)
| MsgConnectionError
| MsgStartingTransmission
| MsgConnectionLost
| MsgSendError
| MsgClientDisconnected
| MsgDaemonStopped.

(** How an open socket came to be: made by [socket.socket(..)], or
    returned by [accept()] for a peer. *)
Inductive sock_kind := Made | Accepted (peer : string).

#[export] Instance sock_kind_eq_dec : EqDecision sock_kind.
Proof. solve_decision. Defined.

(** The lines the command-line tool prints. *)
Inductive out :=
| OutUsage
| OutMustBeRoot
| OutStarting
| OutStopped (pid : Z)
| OutNotRunning
| OutErrorStopping (e : exn)
| OutRunning (pid : Z)
| OutLogFile
| OutStatusNotRunning
| OutStale
| OutErrorStatus (e : exn)
| OutUnknown (command : string).

Record world := World {
  files : gmap string string;       (* path -> content *)
  procs : gmap Z reaction;          (* live processes *)
  pending : list Z;                 (* termination signals not yet handled *)
  open_socks : gmap nat sock_kind;  (* open socket descriptors *)
  next_sock : nat;                  (* next free descriptor *)
  sdp_registered : bool;            (* the serial-port service record *)
  wire : list (nat * list byte);    (* payloads written, latest first *)
  stdout : list out;                (* latest first *)
  log : list (level * logmsg)       (* latest first *)
}.

Definition with_files (f : gmap string string) (w : world) : world :=
  World f (procs w) (pending w) (open_socks w) (next_sock w)
        (sdp_registered w) (wire w) (stdout w) (log w).
Definition with_procs (p : gmap Z reaction) (w : world) : world :=
  World (files w) p (pending w) (open_socks w) (next_sock w)
        (sdp_registered w) (wire w) (stdout w) (log w).
Definition with_pending (l : list Z) (w : world) : world :=
  World (files w) (procs w) l (open_socks w) (next_sock w)
        (sdp_registered w) (wire w) (stdout w) (log w).
Definition with_open_socks (o : gmap nat sock_kind) (w : world) : world :=
  World (files w) (procs w) (pending w) o (next_sock w)
        (sdp_registered w) (wire w) (stdout w) (log w).
Definition with_next_sock (n : nat) (w : world) : world :=
  World (files w) (procs w) (pending w) (open_socks w) n
        (sdp_registered w) (wire w) (stdout w) (log w).
Definition with_sdp (b : bool) (w : world) : world :=
  World (files w) (procs w) (pending w) (open_socks w) (next_sock w)
        b (wire w) (stdout w) (log w).
Definition with_wire (l : list (nat * list byte)) (w : world) : world :=
  World (files w) (procs w) (pending w) (open_socks w) (next_sock w)
        (sdp_registered w) l (stdout w) (log w).
Definition with_stdout (l : list out) (w : world) : world :=
  World (files w) (procs w) (pending w) (open_socks w) (next_sock w)
        (sdp_registered w) (wire w) l (log w).
Definition with_log (l : list (level * logmsg)) (w : world) : world :=
  World (files w) (procs w) (pending w) (open_socks w) (next_sock w)
        (sdp_registered w) (wire w) (stdout w) l.

Definition print (o : out) (w : world) : world := with_stdout (o :: stdout w) w.

(** [os.path.exists(path)] *)
Definition path_exists (path : string) (w : world) : bool :=
  bool_decide (is_Some (files w !! path)).

(** [os.remove(path)] *)
Definition os_remove (path : string) (w : world) : res world :=
  match files w !! path with
  | Some _ => Ret (with_files (delete path (files w)) w)
  | None => Raise FileNotFoundError
  end.

(** [open(path, 'r').read()] *)
Definition read_file (path : string) (w : world) : res string :=
  match files w !! path with
  | Some content => Ret content
  | None => Raise FileNotFoundError
  end.

(** [open(path, 'w+').write(text)] *)
Definition write_file (path text : string) (w : world) : world :=
  with_files (<[path := text]> (files w)) w.

Definition SIGINT : Z := 2.
Definition SIGTERM : Z := 15.

(** [os.kill(pid, sig)] as root.  The process id must fit a C [int];
    signal 0 only probes; any other signal is left pending for the target.
    A record naming a non-positive target addresses a process group: the
    table is then read at that key. *)
Definition os_kill (pid sig : Z) (w : world) : res world :=
  if (pid <? - 2 ^ 31) || (2 ^ 31 <=? pid) then Raise OverflowError
  else match procs w !! pid with
       | None => Raise ProcessLookupError
       | Some _ =>
           if sig =? 0 then Ret w
           else Ret (with_pending (pending w ++ [pid]) w)
       end.

(** One pending termination signal takes effect. *)
Definition deliver (w : world) (pid : Z) : world :=
  match procs w !! pid with
  | Some (CleansUp f) =>
      with_files (delete f (files w)) (with_procs (delete pid (procs w)) w)
  | Some Dies => with_procs (delete pid (procs w)) w
  | Some Lingers | None => w
  end.

(** [time.sleep(..)] in the command-line tool: while it sleeps, the
    processes it has signalled react. *)
Definition time_sleep (w : world) : world :=
  with_pending [] (foldl deliver w (pending w)).

(** [socket.socket(..)] and [accept()]: a fresh open descriptor. *)
Definition new_sock (k : sock_kind) (w : world) : nat * world :=
  (next_sock w,
   with_next_sock (S (next_sock w))
     (with_open_socks (<[next_sock w := k]> (open_socks w)) w)).

Definition is_open (fd : nat) (w : world) : bool :=
  bool_decide (is_Some (open_socks w !! fd)).

(** [sock.close()]; closing twice is allowed. *)
Definition sock_close (fd : nat) (w : world) : world :=
  with_open_socks (delete fd (open_socks w)) w.

(** [sock.send(data)] on a descriptor; a closed one raises.  The wire
    keeps the payload the call was given. *)
Definition sock_send (fd : nat) (data : list byte) (w : world) : res world :=
  if is_open fd w
  then Ret (with_wire ((fd, data) :: wire w) w)
  else Raise OSError.

End Sys.

(** ** The daemon: [class DaemonGPSTracker] *)

Module Tracker.
Import Py Sys.

(** The attributes [__init__] sets.  A socket attribute holds the
    descriptor of the socket object, [None] before one is made. *)
Record tracker := Tracker_ {
  log_file : string;
  pid_file : string;
  server_sock : option nat;
  client_sock : option nat;
  gps_session : option unit;
  running : bool;
  channel : Z
}.

Definition with_server_sock (s : option nat) (t : tracker) : tracker :=
  Tracker_ (log_file t) (pid_file t) s (client_sock t) (gps_session t)
           (running t) (channel t).
Definition with_client_sock (s : option nat) (t : tracker) : tracker :=
  Tracker_ (log_file t) (pid_file t) (server_sock t) s (gps_session t)
           (running t) (channel t).
Definition with_gps_session (g : option unit) (t : tracker) : tracker :=
  Tracker_ (log_file t) (pid_file t) (server_sock t) (client_sock t) g
           (running t) (channel t).
Definition with_running (b : bool) (t : tracker) : tracker :=
  Tracker_ (log_file t) (pid_file t) (server_sock t) (client_sock t)
           (gps_session t) b (channel t).

(** [DaemonGPSTracker()] with the default arguments. *)
Definition init : tracker :=
  Tracker_ "/var/log/gps_tracker.log" "/var/run/gps_tracker.pid"
           None None None false 1.

(** The object together with the world: the state every method threads. *)
Record st := St { self : tracker; os : world }.

Definition get_self : M st tracker := λ s, (Ret (self s), s).
Definition get_os : M st world := λ s, (Ret (os s), s).
Definition set_self (f : tracker → tracker) : M st unit :=
  λ s, (Ret tt, St (f (self s)) (os s)).
Definition set_os (f : world → world) : M st unit :=
  λ s, (Ret tt, St (self s) (f (os s))).

(** A world operation that may raise; the world is unchanged when it
    does. *)
Definition lift_os (f : world → res world) : M st unit :=
  λ s, match f (os s) with
       | Ret w => (Ret tt, St (self s) w)
       | Raise e => (Raise e, s)
       end.

(** [self.log(message, level)] *)
Definition log_ (msg : logmsg) (lvl : level) : M st unit :=
  set_os (λ w, with_log ((lvl, msg) :: log w) w).

(** [cleanup]: [sdptool] tells whether the tool can be run at all. *)
Definition cleanup (sdptool : bool) : M st unit :=
  set_self (with_running false) ;$
  try_except
    (if sdptool then set_os (with_sdp false) else raise FileNotFoundError)
    bare (λ _, ret tt) ;$
  t ←$ get_self ;
  match client_sock t with
  | Some fd => try_except (set_os (sock_close fd)) bare (λ _, ret tt)
  | None => ret tt
  end ;$
  match server_sock t with
  | Some fd => try_except (set_os (sock_close fd)) bare (λ _, ret tt)
  | None => ret tt
  end ;$
  w ←$ get_os ;
  (if path_exists (pid_file t) w then lift_os (os_remove (pid_file t))
   else ret tt) ;$
  log_ MsgDaemonStopped LInfo.

(** [signal_handler]: it ends in [sys.exit(0)] and so never returns. *)
Definition signal_handler {A} (signum : Z) (sdptool : bool) : M st A :=
  log_ (MsgSignal signum) LInfo ;$
  set_self (with_running false) ;$
  cleanup sdptool ;$
  raise (SystemExit 0).

(** How a blocking call ends: it returns, it raises, or a termination
    signal arrives and the handler runs in its place. *)
Inductive wait (A : Type) :=
| Done (a : A)
| Failed (e : exn)
| Signalled (signum : Z) (sdptool : bool).
Arguments Done {A} a.
Arguments Failed {A} e.
Arguments Signalled {A} signum sdptool.

Definition await {A} (o : wait A) : M st A :=
  match o with
  | Done a => ret a
  | Failed e => raise e
  | Signalled n t => signal_handler n t
  end.

(** The two forks of [daemonize], seen from the process that goes on (the
    parents leave through [sys.exit(0)]): either fork may fail, otherwise
    the daemon runs under a new process id.  Leaving the terminal and
    redirecting the standard streams change nothing of the world kept
    here; the handlers the method installs are what makes a signal run
    [signal_handler] from then on. *)
Inductive fork := ForkFails | SecondForkFails | Forked (pid : Z).

Definition daemonize (o : fork) : M st unit :=
  match o with
  | ForkFails => log_ MsgForkFailed LError ;$ raise (SystemExit 1)
  | SecondForkFails => log_ MsgSecondForkFailed LError ;$ raise (SystemExit 1)
  | Forked pid =>
      t ←$ get_self ;
      set_os (write_file (pid_file t) (str_int pid ++ nl)) ;$
      log_ MsgDaemonStarted LInfo
  end.

(** [make_discoverable]: [ok] tells whether the radio tools succeed. *)
Definition make_discoverable (ok : bool) : M st bool :=
  try_except
    ((if ok then ret tt else raise OSError) ;$
     log_ MsgDiscoverable LInfo ;$
     ret true)
    is_Exception
    (λ _, log_ MsgDiscoverableError LWarning ;$ ret false).

(** [sdptool] cannot be run, runs and refuses the record, or adds it. *)
Inductive sdp := SdpToolFails | SdpRefused | SdpAdded.

Definition register_sdp_service (o : sdp) : M st bool :=
  try_except
    (match o with
     | SdpToolFails => raise FileNotFoundError
     | SdpRefused => set_os (with_sdp false) ;$ ret false
     | SdpAdded =>
         set_os (with_sdp false) ;$
         set_os (with_sdp true) ;$
         log_ MsgSdpRegistered LInfo ;$
         ret true
     end)
    is_Exception
    (λ _, log_ MsgSdpError LWarning ;$ ret false).

(** The socket cannot be made, is made but cannot be bound or listen, or
    listens. *)
Inductive bt := BtNoSocket | BtBindFails | BtListening.

Definition setup_bluetooth (o : bt) : M st bool :=
  try_except
    (match o with
     | BtNoSocket => raise OSError
     | BtBindFails | BtListening =>
         w ←$ get_os ;
         set_os (λ _, (new_sock Made w).2) ;$
         set_self (with_server_sock (Some (new_sock Made w).1)) ;$
         match o with
         | BtListening =>
             t ←$ get_self ;
             log_ (MsgListening (channel t)) LInfo ;$
             ret true
         | _ => raise OSError
         end
     end)
    is_Exception
    (λ _, log_ MsgBluetoothError LError ;$ ret false).

Definition setup_gps (ok : bool) : M st bool :=
  try_except
    ((if ok then set_self (with_gps_session (Some tt)) else raise OSError) ;$
     log_ MsgGpsInitialized LInfo ;$
     ret true)
    is_Exception
    (λ _, log_ MsgGpsError LWarning ;$ ret false).

(** [accept_connection]: [o] is how the blocking [accept()] ends, with
    the peer's address when it returns. *)
Definition accept_connection (o : wait string) : M st bool :=
  try_except
    (log_ MsgWaiting LInfo ;$
     t ←$ get_self ;
     match server_sock t with
     | None => raise AttributeError
     | Some fd =>
         w ←$ get_os ;
         (if is_open fd w then ret tt else raise OSError) ;$
         client_info ←$ await o ;
         w ←$ get_os ;
         set_os (λ _, (new_sock (Accepted client_info) w).2) ;$
         set_self (with_client_sock (Some (new_sock (Accepted client_info) w).1)) ;$
         log_ (MsgConnected client_info) LInfo ;$
         ret true
     end)
    is_Exception
    (λ _, log_ MsgConnectionError LError ;$ ret false).

(** A gpsd report: its attributes by name. *)
Definition report := gmap string pyval.

(** [getattr(report, name, default)] *)
Definition getattr (r : gmap string pyval) (name : string) (d : pyval) : pyval :=
  default d (r !! name).

(** The report is a position fix: a TPV report with both coordinates. *)
Definition is_fix (r : gmap string pyval) : Prop :=
  r !! "class" = Some (PStr (cps "TPV")) ∧
  is_Some (r !! "lat") ∧ is_Some (r !! "lon").

(** The record [get_gps_data] makes of a fix with coordinates [lat] and
    [lon]. *)
Definition gps_record (r : gmap string pyval) (lat lon : pyval)
  : list (string * pyval) :=
  [("type", PStr (cps "gps"));
   ("latitude", lat);
   ("longitude", lon);
   ("altitude", getattr r "alt" (PInt 0));
   ("speed", getattr r "speed" (PInt 0));
   ("timestamp", getattr r "time" (PStr []))].

(** A poll that yields no fix: the source raises, or its report is not a
    position fix. *)
Definition no_fix (o : wait (gmap string pyval)) : Prop :=
  match o with
  | Done r => ¬ is_fix r
  | Failed _ => True
  | Signalled _ _ => False
  end.

(** [get_gps_data]: [o] is how [self.gps_session.next()] ends. *)
Definition get_gps_data (o : wait (gmap string pyval))
  : M st (option (list (string * pyval))) :=
  try_except
    (t ←$ get_self ;
     match gps_session t with
     | None => raise AttributeError
     | Some _ =>
         r ←$ await o ;
         match r !! "class" with
         | None => raise KeyError
         | Some c =>
             if bool_decide (c = PStr (cps "TPV")) then
               match r !! "lat", r !! "lon" with
               | Some lat, Some lon => ret (Some (gps_record r lat lon))
               | _, _ => ret None
               end
             else ret None
         end
     end)
    bare
    (λ _, ret None).

End Tracker.

(** ** The daemon as a machine: [start_daemon], [run], [send_gps_data]

    [run] and [send_gps_data] loop for ever around calls that block.  The
    machine stops at every such call; an event tells how the call ends,
    and a step runs the script from there to the next blocking call. *)

Module Daemon.
Import Py Sys Tracker.
Local Open Scope list_scope.

(** Where the process is blocked. *)
Inductive pc :=
| AtDaemonize                 (* start_daemon: the tracker is made *)
| AtRun                       (* daemonize() is over, run() begins *)
| AtAccept                    (* accept_connection: accept() *)
| AtPoll                      (* get_gps_data: gps_session.next() *)
| AtSend (json_str : list N)  (* send_gps_data: client_sock.send(..) *)
| AtSleep2                    (* send_gps_data: time.sleep(2), in the try *)
| AtErrSleep                  (* send_gps_data: time.sleep(2), in the handler *)
| AtSleep1                    (* run: time.sleep(1) *)
| Exited (code : Z).          (* the process is gone *)

Record machine := Machine { at_ : pc; state : st }.

(** What the world answers at the four setup calls of [run]. *)
Record setup := Setup {
  radio_ok : bool; bt_result : bt; sdp_result : sdp; gps_ok : bool }.

Inductive event :=
| EvDaemonize (o : fork)
| EvSetup (o : wait setup)
| EvAccept (o : wait string)
| EvPoll (o : wait (gmap string pyval))
| EvSend (o : wait unit)
| EvWake (o : wait unit).

(** The exit status an exception leaves when nothing catches it. *)
Definition exit_code (e : exn) : Z :=
  match e with SystemExit c => c | _ => 1 end.

Definition exec (m : M st pc) (s : st) : machine :=
  match m s with
  | (Ret p, s') => Machine p s'
  | (Raise e, s') => Machine (Exited (exit_code e)) s'
  end.

(** [bool(d)] for a dict or [None]. *)
Definition truthy (d : option (list (string * pyval))) : bool :=
  match d with Some (_ :: _) => true | _ => false end.

(** [run], after a session: lines 228 to 232, up to the sleep. *)
Definition after_session : M st pc :=
  t ←$ get_self ;
  match client_sock t with
  | Some fd =>
      set_os (sock_close fd) ;$
      set_self (with_client_sock None)
  | None => ret tt
  end ;$
  log_ MsgClientDisconnected LInfo ;$
  ret AtSleep1.

(** [send_gps_data]: the test of [while self.running]; when it fails the
    method returns to [run]. *)
Definition serve_test : M st pc :=
  t ←$ get_self ;
  if running t then ret AtPoll else after_session.

(** [run]: the test of [while self.running]; when it fails [run] and
    [start_daemon] return and the script ends. *)
Definition run_test : M st pc :=
  t ←$ get_self ;
  if running t then ret AtAccept else ret (Exited 0).

(** [run] up to its loop. *)
Definition at_run (o : wait setup) : M st pc :=
  a ←$ await o ;
  make_discoverable (radio_ok a) ;$
  ok ←$ setup_bluetooth (bt_result a) ;
  if negb ok then
    log_ MsgBluetoothSetupFailed LError ;$
    ret (Exited 0)
  else
    register_sdp_service (sdp_result a) ;$
    setup_gps (gps_ok a) ;$
    set_self (with_running true) ;$
    run_test.

(** [run]: [if self.accept_connection(): self.send_gps_data() ..]. *)
Definition at_accept (o : wait string) : M st pc :=
  ok ←$ accept_connection o ;
  if ok then
    log_ MsgStartingTransmission LInfo ;$
    serve_test
  else ret AtSleep1.

(** [send_gps_data]: from the poll to the text that is to be sent. *)
Definition at_poll (o : wait (gmap string pyval)) : M st pc :=
  try_except
    (gps_data ←$ get_gps_data o ;
     t ←$ get_self ;
     if truthy gps_data && bool_decide (is_Some (client_sock t)) then
       json_str ←$ of_res (Json.dumps (default [] gps_data)) ;
       ret (AtSend (json_str ++ cps nl))
     else ret AtSleep2)
    is_Exception
    (λ _, log_ MsgSendError LError ;$ ret AtErrSleep).

(** How an iteration of the loop of [send_gps_data] goes on. *)
Inductive ctl := Continue (p : pc) | Break.

(** [send_gps_data]: the inner [try] around [send], then the sleep. *)
Definition at_send (json_str : list N) (o : wait unit) : M st pc :=
  c ←$ try_except
         (try_except
            (t ←$ get_self ;
             match client_sock t with
             | None => raise AttributeError
             | Some fd =>
                 data ←$ of_res (Json.encode_utf8 json_str) ;
                 await o ;$
                 lift_os (sock_send fd data) ;$
                 ret (Continue AtSleep2)
             end)
            bare
            (λ _, log_ MsgConnectionLost LWarning ;$ ret Break))
         is_Exception
         (λ _, log_ MsgSendError LError ;$ ret (Continue AtErrSleep)) ;
  match c with
  | Continue p => ret p
  | Break => after_session
  end.

(** [time.sleep(2)] at the end of the [try]: the loop goes round, or the
    handler runs and sleeps in its turn. *)
Definition at_sleep2 (o : wait unit) : M st pc :=
  slept ←$ try_except
             (await o ;$ ret true)
             is_Exception
             (λ _, log_ MsgSendError LError ;$ ret false) ;
  if slept : bool then serve_test else ret AtErrSleep.

(** [time.sleep(2)] in the handler. *)
Definition at_err_sleep (o : wait unit) : M st pc :=
  await o ;$ serve_test.

(** [time.sleep(1)] at the end of the loop of [run]. *)
Definition at_sleep1 (o : wait unit) : M st pc :=
  await o ;$ run_test.

(** One step: the event that ends the blocking call the process is in.
    An event of another kind is not for this call and changes nothing. *)
Definition step (m : machine) (e : event) : machine :=
  match at_ m, e with
  | AtDaemonize, EvDaemonize o => exec (daemonize o ;$ ret AtRun) (state m)
  | AtRun, EvSetup o => exec (at_run o) (state m)
  | AtAccept, EvAccept o => exec (at_accept o) (state m)
  | AtPoll, EvPoll o => exec (at_poll o) (state m)
  | AtSend js, EvSend o => exec (at_send js o) (state m)
  | AtSleep2, EvWake o => exec (at_sleep2 o) (state m)
  | AtErrSleep, EvWake o => exec (at_err_sleep o) (state m)
  | AtSleep1, EvWake o => exec (at_sleep1 o) (state m)
  | _, _ => m
  end.

Definition steps (m : machine) (evs : list event) : machine :=
  foldl step m evs.

(** [start_daemon()] in the world [w]: the tracker is made and the
    process is about to daemonize. *)
Definition start_daemon (w : world) : machine :=
  Machine AtDaemonize (St init w).

(** The lifecycle state the design document speaks of, read off the
    machine: no process before [daemonize] and after the exit; starting
    while [run] has not set [running] yet; then running while [running]
    holds and shutting down once it has been cleared. *)
Inductive DaemonState := Stopped | Starting | Running | ShuttingDown.

Definition daemon_state (m : machine) : DaemonState :=
  match at_ m with
  | AtDaemonize | Exited _ => Stopped
  | AtRun => Starting
  | _ => if running (self (state m)) then Running else ShuttingDown
  end.

Definition pid_file_present (m : machine) : Prop :=
  is_Some (files (os (state m)) !! pid_file (self (state m))).

(** The connection sessions that exist: the open sockets [accept()]
    returned. *)
Definition sessions (w : world) : gmap nat sock_kind :=
  filter (λ kv, kv.2 ≠ Made) (open_socks w).

(** A span of polls, each followed by the end of its sleep. *)
Definition polls (os : list (wait (gmap string pyval))) : list event :=
  o ← os; [EvPoll o; EvWake (Done tt)].

Definition printable (c : N) : Prop := (32 ≤ c ≤ 126)%N.

#[export] Instance printable_dec (c : N) : Decision (printable c).
Proof. unfold printable. apply _. Defined.

(** A payload on the wire is one record: the bytes of a printable ASCII
    text, which is the JSON object of the six fields of a fix, followed
    by a single line feed. *)
Definition one_record (data : list byte) : Prop :=
  ∃ (r : gmap string pyval) (lat lon : pyval) (body : list N),
    r !! "class" = Some (PStr (cps "TPV")) ∧
    r !! "lat" = Some lat ∧ r !! "lon" = Some lon ∧
    Json.dumps [("type", PStr (cps "gps"));
                ("latitude", lat);
                ("longitude", lon);
                ("altitude", default (PInt 0) (r !! "alt"));
                ("speed", default (PInt 0) (r !! "speed"));
                ("timestamp", default (PStr []) (r !! "time"))] = Ret body ∧
    Forall printable body ∧
    data = (Json.byte_of_N <$> body) ++ [Json.byte_of_N 10].

(** A sample world and a sample run: the machine boots, the server
    listens, a peer connects, a fix is sent, the next send fails, and a
    second peer connects. *)
Definition w_boot : world := World ∅ ∅ [] ∅ 3 false [] [] [].

Definition sample_fix : gmap string pyval :=
  {[ "class" := PStr (cps "TPV");
     "lat" := PFloat (FFinite [F4; F8; FDot; F8; F5]);
     "lon" := PFloat (FFinite [F2; FDot; F3; F5]);
     "time" := PStr (cps "2024-01-01T00:00:00.000Z") ]}.

Definition sample_sky : gmap string pyval :=
  {[ "class" := PStr (cps "SKY") ]}.

Definition sample_run : list event :=
  [EvDaemonize (Forked 4242);
   EvSetup (Done (Setup true BtListening SdpAdded true));
   EvAccept (Done "AA:BB:CC:DD:EE:FF");
   EvPoll (Done sample_fix); EvSend (Done tt); EvWake (Done tt);
   EvPoll (Done sample_fix); EvSend (Failed OSError); EvWake (Done tt);
   EvAccept (Done "11:22:33:44:55:66")].

(** A text at the point of sending is the JSON object of the six fields
    of a fix, followed by a line feed. *)
Definition sendable (json_str : list N) : Prop :=
  ∃ (r : gmap string pyval) (lat lon : pyval) (body : list N),
    r !! "class" = Some (PStr (cps "TPV")) ∧
    r !! "lat" = Some lat ∧ r !! "lon" = Some lon ∧
    Json.dumps [("type", PStr (cps "gps"));
                ("latitude", lat);
                ("longitude", lon);
                ("altitude", default (PInt 0) (r !! "alt"));
                ("speed", default (PInt 0) (r !! "speed"));
                ("timestamp", default (PStr []) (r !! "time"))] = Ret body ∧
    json_str = body ++ cps nl.

(** What holds of the wire all along, from the world [w0] the daemon was
    started in: what was written since is made of records, and a text
    about to be sent is one. *)
Definition wire_inv (w0 : world) (m : machine) : Prop :=
  (∃ new, wire (os (state m)) = new ++ wire w0 ∧
          Forall (λ x, one_record x.2) new) ∧
  (∀ js, at_ m = AtSend js → sendable js).

(** What happens to the daemon when its server opens and nothing
    crashes it: the setup calls return and the socket listens, [accept()]
    raises nothing that [except Exception] lets through, and the sleeps
    do not raise. *)
Definition benign (e : event) : Prop :=
  match e with
  | EvSetup (Done a) => bt_result a = BtListening
  | EvSetup (Failed _) => False
  | EvAccept (Failed x) => is_Exception x = true
  | EvWake (Failed _) => False
  | _ => True
  end.

(** What holds of the PID file along such runs. *)
Definition pid_inv (m : machine) : Prop :=
  let present := is_Some (files (os (state m)) !! pid_file (self (state m))) in
  let absent := files (os (state m)) !! pid_file (self (state m)) = None in
  match at_ m with
  | AtDaemonize | Exited _ => absent
  | AtRun => present
  | _ => if running (self (state m)) then present else absent
  end.

(** The control points at which no session is being served. *)
Definition idle (p : pc) : Prop :=
  match p with
  | AtDaemonize | AtRun | AtAccept | AtSleep1 => True
  | _ => False
  end.

(** What holds of the sessions all along: an open accepted socket is the
    one [client_sock] names, and [client_sock] is [None] at the idle
    points. *)
Definition session_inv (m : machine) : Prop :=
  (∀ fd peer, open_socks (os (state m)) !! fd = Some (Accepted peer) →
              client_sock (self (state m)) = Some fd) ∧
  (idle (at_ m) → client_sock (self (state m)) = None).

End Daemon.

(** ** The command-line tool: [stop_daemon], [status_daemon], [__main__] *)

Module Cli.
Import Py Sys Tracker Daemon.
Local Open Scope list_scope.

Definition default_pid_file : string := "/var/run/gps_tracker.pid".

Definition say (o : out) : M world unit := λ w, (Ret tt, print o w).

(** [stop_daemon], lines 270 to 277: the record is read, the signal is
    sent and the grace period is waited for.  The result is the process
    id that was read. *)
Definition stop_signal_and_wait (pid_file : string) : M world Z :=
  content ←$ (λ w, (read_file pid_file w, w)) ;
  pid ←$ of_res (int (strip content)) ;
  lift (os_kill pid SIGTERM) ;$
  say (OutStopped pid) ;$
  (λ w, (Ret tt, time_sleep w)) ;$
  ret pid.

(** [stop_daemon] *)
Definition stop_daemon (pid_file : string) : M world unit :=
  try_excepts
    (stop_signal_and_wait pid_file ;$
     w ←$ (λ w, (Ret w, w)) ;
     if path_exists pid_file w then lift (os_remove pid_file) else ret tt)
    [(is_FileNotFoundError, λ _, say OutNotRunning);
     (is_Exception, λ e, say (OutErrorStopping e))].

(** [status_daemon] *)
Definition status_daemon (pid_file : string) : M world unit :=
  try_excepts
    (content ←$ (λ w, (read_file pid_file w, w)) ;
     pid ←$ of_res (int (strip content)) ;
     lift (os_kill pid 0) ;$
     say (OutRunning pid) ;$
     say OutLogFile)
    [(is_FileNotFoundError, λ _, say OutStatusNotRunning);
     (is_ProcessLookupError,
      λ _, say OutStale ;$
           w ←$ (λ w, (Ret w, w)) ;
           if path_exists pid_file w then lift (os_remove pid_file)
           else ret tt);
     (is_Exception, λ e, say (OutErrorStatus e))].

(** The script body under [if __name__ == '__main__'], up to the call of
    [start_daemon]: it returns [true] when that call is what comes next,
    [false] when the script is over. *)
Definition main_body (argv : list string) (euid : Z) : M world bool :=
  (if (length argv <? 2)%nat then
     say OutUsage ;$ raise (SystemExit 1)
   else ret tt) ;$
  (if negb (euid =? 0) then
     say OutMustBeRoot ;$ raise (SystemExit 1)
   else ret tt) ;$
  let command := lower (default "" (argv !! 1%nat)) in
  if String.eqb command "start" then
    say OutStarting ;$ ret true
  else if String.eqb command "stop" then
    stop_daemon default_pid_file ;$ ret false
  else if String.eqb command "status" then
    status_daemon default_pid_file ;$ ret false
  else if String.eqb command "restart" then
    stop_daemon default_pid_file ;$
    (λ w, (Ret tt, time_sleep w)) ;$
    say OutStarting ;$
    ret true
  else
    say (OutUnknown command) ;$ raise (SystemExit 1).

(** How an invocation ends: the process exits with a status, or it has
    become the daemon. *)
Inductive result :=
| ExitWith (code : Z) (w : world)
| Daemonized (m : machine).

(** The whole script; [evs] is what happens to the daemon when one is
    started. *)
Definition main (argv : list string) (euid : Z) (evs : list event)
    (w : world) : result :=
  match main_body argv euid w with
  | (Raise e, w') => ExitWith (exit_code e) w'
  | (Ret false, w') => ExitWith 0 w'
  | (Ret true, w') => Daemonized (steps (start_daemon w') evs)
  end.

(** The stop operation as the design document words it: when the PID
    file is still there once the grace period is over, it is still there
    when [stop_daemon] returns. *)
Definition stop_keeps_pid_file (pid_file : string) (w : world) : Prop :=
  is_Some (files (stop_signal_and_wait pid_file w).2 !! pid_file) →
  is_Some (files (stop_daemon pid_file w).2 !! pid_file).

(** The status operation as the design document words it: one of three
    outcomes, by whether the PID file is there and the process alive. *)
Definition status_three_outcomes (pid_file : string) (w : world) : Prop :=
  let w' := (status_daemon pid_file w).2 in
  (files w !! pid_file = None ∧
   stdout w' = OutStatusNotRunning :: stdout w ∧ files w' = files w) ∨
  (∃ pid, is_Some (files w !! pid_file) ∧ is_Some (procs w !! pid) ∧
          stdout w' = OutLogFile :: OutRunning pid :: stdout w ∧
          files w' = files w) ∨
  (is_Some (files w !! pid_file) ∧
   stdout w' = OutStale :: stdout w ∧ files w' !! pid_file = None).

(** A world with a daemon that does not finish its shutdown within the
    grace period, and one whose PID file does not hold a number. *)
Definition w_lingering : world :=
  World {[ default_pid_file := ("77" ++ nl)%string ]} {[ 77 := Lingers ]}
        [] ∅ 3 false [] [] [].

Definition w_garbled : world :=
  World {[ default_pid_file := "abc" ]} ∅ [] ∅ 3 false [] [] [].

End Cli.

(** ** Runs and worlds the further properties speak of *)

Module Scenarios.
Import Py Sys Tracker Daemon Cli.
Local Open Scope list_scope.

(** The bytes [send_gps_data] hands to [send] for a report, when the
    report is a fix that can be written. *)
Definition payload (r : gmap string pyval) : option (list byte) :=
  match r !! "lat", r !! "lon" with
  | Some lat, Some lon =>
      match Json.dumps (gps_record r lat lon) with
      | Ret body =>
          match Json.encode_utf8 (body ++ cps nl) with
          | Ret data => Some data
          | Raise _ => None
          end
      | Raise _ => None
      end
  | _, _ => None
  end.

(** A span of fixes, each polled, sent with success and slept on. *)
Definition sends (rs : list (gmap string pyval)) : list event :=
  r ← rs; [EvPoll (Done r); EvSend (Done tt); EvWake (Done tt)].

(** The event by which a termination signal reaches the daemon blocked
    at the control point [p]. *)
Definition signal_at (p : pc) (signum : Z) (sdptool : bool) : event :=
  match p with
  | AtDaemonize => EvDaemonize ForkFails
  | AtRun => EvSetup (Signalled signum sdptool)
  | AtAccept => EvAccept (Signalled signum sdptool)
  | AtPoll => EvPoll (Signalled signum sdptool)
  | AtSend _ => EvSend (Signalled signum sdptool)
  | _ => EvWake (Signalled signum sdptool)
  end.

(** The daemon is on its way out: [running] is cleared and what is left
    of the script are the sleeps and the end. *)
Definition winding_down (m : machine) : Prop :=
  running (self (state m)) = false ∧
  match at_ m with
  | AtSleep2 | AtErrSleep | AtSleep1 | Exited _ => True
  | _ => False
  end.

(** The daemon is past its setup, has no session with the location
    source and is not about to send. *)
Definition mute (m : machine) : Prop :=
  gps_session (self (state m)) = None ∧
  match at_ m with
  | AtDaemonize | AtRun | AtSend _ => False
  | _ => True
  end.

(** The listening socket is there: [server_sock] names an open
    descriptor, older than the next free one and other than the one
    [client_sock] names. *)
Definition listening (s : st) : Prop :=
  ∃ sfd, server_sock (self s) = Some sfd ∧
         is_Some (open_socks (os s) !! sfd) ∧
         (sfd < next_sock (os s))%nat ∧
         ∀ cfd, client_sock (self s) = Some cfd → cfd ≠ sfd.

(** What holds of the server all along: in [accept()], in a poll and in
    a send the daemon is running and listens, a send has a client
    socket to send on, and in the sleeps the daemon listens as long as
    it is running. *)
Definition armed (m : machine) : Prop :=
  match at_ m with
  | AtAccept | AtPoll =>
      running (self (state m)) = true ∧ listening (state m)
  | AtSend _ =>
      running (self (state m)) = true ∧ listening (state m) ∧
      is_Some (client_sock (self (state m)))
  | AtSleep2 | AtErrSleep | AtSleep1 =>
      running (self (state m)) = true → listening (state m)
  | AtDaemonize | AtRun => client_sock (self (state m)) = None
  | Exited _ => True
  end.

(** A tracker in the middle of a session, and its world: the server
    listens on descriptor 3 and a peer is connected on descriptor 4. *)
Definition t_serving : tracker :=
  Tracker_ "/var/log/gps_tracker.log" "/var/run/gps_tracker.pid"
           (Some 3%nat) (Some 4%nat) (Some tt) true 1.

Definition w_serving : world :=
  World {[ "/var/run/gps_tracker.pid" := ("4242" ++ nl)%string ]} ∅ []
        {[ 3%nat := Made; 4%nat := Accepted "AA:BB:CC:DD:EE:FF" ]}
        5 true [] [] [].

(** The PID file names a live process. *)
Definition names_process (pid_file : string) (w : world) : Prop :=
  ∃ content pid,
    files w !! pid_file = Some content ∧ int (strip content) = Ret pid ∧
    - 2 ^ 31 ≤ pid < 2 ^ 31 ∧ is_Some (procs w !! pid).

End Scenarios.

(** * Properties *)

(** ** The methods of the tracker *)

Module TrackerProps.
Import Py Sys Tracker.
Local Open Scope list_scope.

Ltac unfold_m :=
  unfold mbind, ret, raise, try_except, try_excepts, lift, of_res, bare,
    get_self, get_os, set_self, set_os, lift_os, log_ in *.

(** [cleanup] never raises, and its result is known. *)
Lemma cleanup_returns (sdptool : bool) (s : st) :
  ∃ s', cleanup sdptool s = (Ret tt, s') ∧
    self s' = with_running false (self s) ∧
    files (os s') = delete (pid_file (self s)) (files (os s)) ∧
    open_socks (os s') =
      from_option delete id (server_sock (self s))
        (from_option delete id (client_sock (self s)) (open_socks (os s))) ∧
    sdp_registered (os s') =
      (if sdptool then false else sdp_registered (os s)) ∧
    procs (os s') = procs (os s) ∧ pending (os s') = pending (os s) ∧
    next_sock (os s') = next_sock (os s) ∧ wire (os s') = wire (os s) ∧
    stdout (os s') = stdout (os s) ∧
    log (os s') = (LInfo, MsgDaemonStopped) :: log (os s).
Proof.
  destruct s as [t w]. unfold cleanup. unfold_m. simpl.
  destruct sdptool; simpl;
    destruct (client_sock t) as [c|]; simpl;
    destruct (server_sock t) as [v|]; simpl;
    unfold path_exists, os_remove; simpl;
    destruct (files w !! pid_file t) as [x|] eqn:E; simpl;
    rewrite ?bool_decide_eq_true_2 by eauto;
    rewrite ?bool_decide_eq_false_2 by (intros [? ?]; congruence);
    simpl; rewrite ?E; simpl;
    eexists; (split; [reflexivity|]); simpl;
    repeat split; try reflexivity;
    symmetry; apply delete_id; assumption.
Qed.

(** C3.  Shutdown is idempotent: from every state of the daemon, in
    whatever way the service tool answers, [cleanup] returns without
    raising, a second [cleanup] returns without raising too, and the
    second leaves the tracker, the files and the sockets as the first
    left them: not running, no PID file, client and server sockets
    closed. *)
Theorem cleanup_idempotent (sdptool1 sdptool2 : bool) (s : st) :
  ∃ s1 s2,
    cleanup sdptool1 s = (Ret tt, s1) ∧
    cleanup sdptool2 s1 = (Ret tt, s2) ∧
    self s2 = self s1 ∧
    files (os s2) = files (os s1) ∧
    open_socks (os s2) = open_socks (os s1) ∧
    running (self s1) = false ∧
    files (os s1) !! pid_file (self s1) = None ∧
    (∀ fd, client_sock (self s1) = Some fd → open_socks (os s1) !! fd = None) ∧
    (∀ fd, server_sock (self s1) = Some fd → open_socks (os s1) !! fd = None).
Proof.
  destruct (cleanup_returns sdptool1 s)
    as (s1 & H1 & Hself1 & Hfiles1 & Hsocks1 & _).
  destruct (cleanup_returns sdptool2 s1)
    as (s2 & H2 & Hself2 & Hfiles2 & Hsocks2 & _).
  exists s1, s2. split; [exact H1|]. split; [exact H2|].
  assert (Hpid : pid_file (self s1) = pid_file (self s))
    by (rewrite Hself1; reflexivity).
  assert (Hc : client_sock (self s1) = client_sock (self s))
    by (rewrite Hself1; reflexivity).
  assert (Hv : server_sock (self s1) = server_sock (self s))
    by (rewrite Hself1; reflexivity).
  assert (Hclosed_c : ∀ fd, client_sock (self s1) = Some fd →
                            open_socks (os s1) !! fd = None).
  { intros fd Hfd. rewrite Hsocks1, <- Hc, Hfd. simpl.
    destruct (server_sock (self s)) as [v|]; simpl.
    - destruct (decide (v = fd)) as [->|Hne].
      + apply lookup_delete_eq.
      + rewrite lookup_delete_ne by exact Hne. apply lookup_delete_eq.
    - apply lookup_delete_eq. }
  assert (Hclosed_v : ∀ fd, server_sock (self s1) = Some fd →
                            open_socks (os s1) !! fd = None).
  { intros fd Hfd. rewrite Hsocks1, <- Hv, Hfd. simpl.
    apply lookup_delete_eq. }
  assert (Hnofile : files (os s1) !! pid_file (self s1) = None).
  { rewrite Hfiles1, Hpid. apply lookup_delete_eq. }
  repeat split.
  - rewrite Hself2, Hself1. reflexivity.
  - rewrite Hfiles2. apply delete_id. exact Hnofile.
  - rewrite Hsocks2.
    destruct (client_sock (self s1)) as [c|] eqn:Ec;
      destruct (server_sock (self s1)) as [v|] eqn:Ev; simpl.
    + rewrite (delete_id (open_socks (os s1)) c) by (apply Hclosed_c; reflexivity).
      apply delete_id. apply Hclosed_v; reflexivity.
    + apply delete_id. apply Hclosed_c; reflexivity.
    + apply delete_id. apply Hclosed_v; reflexivity.
    + reflexivity.
  - rewrite Hself1. reflexivity.
  - exact Hnofile.
  - exact Hclosed_c.
  - exact Hclosed_v.
Qed.

(** The handler always leaves through [SystemExit], after [cleanup]. *)
Lemma signal_handler_exits {A} (signum : Z) (sdptool : bool) (s : st) :
  ∃ s', @signal_handler A signum sdptool s = (Raise (SystemExit 0), s') ∧
    self s' = with_running false (self s) ∧
    files (os s') = delete (pid_file (self s)) (files (os s)) ∧
    open_socks (os s') =
      from_option delete id (server_sock (self s))
        (from_option delete id (client_sock (self s)) (open_socks (os s))) ∧
    wire (os s') = wire (os s).
Proof.
  unfold signal_handler.
  set (s0 := St (with_running false (self s))
                (with_log ((LInfo, MsgSignal signum) :: log (os s)) (os s))).
  destruct (cleanup_returns sdptool s0)
    as (s' & Hc & Hself & Hfiles & Hsocks & _ & _ & _ & _ & Hwire & _).
  exists s'. unfold_m. simpl. fold s0. rewrite Hc. simpl.
  split; [reflexivity|]. rewrite Hself, Hfiles, Hsocks, Hwire.
  repeat split.
Qed.

(** A poll without a fix returns [None] and changes nothing. *)
Lemma get_gps_data_no_fix (o : wait (gmap string pyval)) (s : st) :
  no_fix o → get_gps_data o s = (Ret None, s).
Proof.
  intros Hno. unfold get_gps_data. unfold_m. simpl.
  destruct (gps_session (self s)); [|reflexivity].
  destruct o as [r|e|n t]; simpl in *; [|reflexivity|contradiction].
  destruct (r !! "class") as [c|] eqn:Ec; [|reflexivity].
  case_bool_decide as Hc; [|reflexivity]. subst c.
  destruct (r !! "lat") as [lat|] eqn:Elat; [|reflexivity].
  destruct (r !! "lon") as [lon|] eqn:Elon; [|reflexivity].
  exfalso. apply Hno. unfold is_fix. rewrite Ec, Elat, Elon. eauto.
Qed.

(** [get_gps_data] never raises. *)
Lemma get_gps_data_returns (o : wait (gmap string pyval)) (s : st) :
  ∃ d s', get_gps_data o s = (Ret d, s').
Proof.
  unfold get_gps_data. unfold_m. simpl.
  destruct (gps_session (self s)); [|eauto].
  destruct o as [r|e|n t]; simpl; [|eauto|].
  - destruct (r !! "class") as [c|]; [|eauto].
    case_bool_decide; [|eauto].
    destruct (r !! "lat"), (r !! "lon"); eauto.
  - destruct (@signal_handler_exits (gmap string pyval) n t s) as (s' & -> & _).
    eauto.
Qed.

(** A record comes from a fix only, and holds its six fields. *)
Lemma get_gps_data_some (o : wait (gmap string pyval)) (s : st)
    (d : list (string * pyval)) :
  (get_gps_data o s).1 = Ret (Some d) →
  ∃ (r : gmap string pyval) (lat lon : pyval),
    is_Some (gps_session (self s)) ∧ o = Done r ∧
    r !! "class" = Some (PStr (cps "TPV")) ∧
    r !! "lat" = Some lat ∧ r !! "lon" = Some lon ∧
    d = [("type", PStr (cps "gps"));
         ("latitude", lat);
         ("longitude", lon);
         ("altitude", default (PInt 0) (r !! "alt"));
         ("speed", default (PInt 0) (r !! "speed"));
         ("timestamp", default (PStr []) (r !! "time"))].
Proof.
  unfold get_gps_data. unfold_m. simpl.
  destruct (gps_session (self s)) eqn:Eg; simpl; [|discriminate].
  destruct o as [r|e|n t]; simpl; [|discriminate|].
  - destruct (r !! "class") as [c|] eqn:Ec; simpl; [|discriminate].
    case_bool_decide as Hc; simpl; [|discriminate]. subst c.
    destruct (r !! "lat") as [lat|] eqn:Elat; simpl; [|discriminate].
    destruct (r !! "lon") as [lon|] eqn:Elon; simpl; [|discriminate].
    intros [= <-]. exists r, lat, lon. repeat split; eauto.
  - destruct (@signal_handler_exits (gmap string pyval) n t s)
      as (s' & -> & _).
    discriminate.
Qed.

(** C10.  A poll produces a record exactly when a session with the
    source exists and the report it returns has class TPV and carries
    both a latitude and a longitude; the record then holds the six fields
    in order, the coordinates as reported, a missing altitude or speed
    as 0 and a missing time stamp as the empty text. *)
Theorem get_gps_data_record (o : wait (gmap string pyval)) (s : st)
    (d : list (string * pyval)) :
  (get_gps_data o s).1 = Ret (Some d) ↔
  ∃ (r : gmap string pyval) (lat lon : pyval),
    is_Some (gps_session (self s)) ∧ o = Done r ∧
    r !! "class" = Some (PStr (cps "TPV")) ∧
    r !! "lat" = Some lat ∧ r !! "lon" = Some lon ∧
    d = [("type", PStr (cps "gps"));
         ("latitude", lat);
         ("longitude", lon);
         ("altitude", default (PInt 0) (r !! "alt"));
         ("speed", default (PInt 0) (r !! "speed"));
         ("timestamp", default (PStr []) (r !! "time"))].
Proof.
  split; [apply get_gps_data_some|].
  intros (r & lat & lon & [g Hg] & -> & Hc & Hlat & Hlon & ->).
  unfold get_gps_data. unfold_m. simpl.
  rewrite Hg. simpl. rewrite Hc. rewrite bool_decide_eq_true_2 by reflexivity.
  rewrite Hlat, Hlon. reflexivity.
Qed.

End TrackerProps.

(** ** The command-line tool *)

Module CliProps.
Import Py Sys Tracker Daemon Cli.
Local Open Scope list_scope.

Ltac unfold_m :=
  unfold mbind, ret, raise, try_except, try_excepts, lift, of_res, bare,
    say in *.

(** [int] raises nothing but [ValueError]. *)
Lemma int_raises (s : string) (e : exn) : int s = Raise e → e = ValueError.
Proof.
  unfold int.
  match goal with
  | |- context [match ?x with Some _ => _ | None => _ end] => destruct x
  end; congruence.
Qed.

(** What [status_daemon] does, case by case. *)
Lemma status_daemon_cases (path : string) (w : world) :
  status_daemon path w =
  (Ret tt,
   match files w !! path with
   | None => print OutStatusNotRunning w
   | Some content =>
       match int (strip content) with
       | Raise e => print (OutErrorStatus e) w
       | Ret pid =>
           if (pid <? - 2 ^ 31) || (2 ^ 31 <=? pid)
           then print (OutErrorStatus OverflowError) w
           else match procs w !! pid with
                | Some _ => print OutLogFile (print (OutRunning pid) w)
                | None =>
                    with_files (delete path (files w)) (print OutStale w)
                end
       end
   end).
Proof.
  unfold status_daemon, read_file. unfold_m. simpl.
  destruct (files w !! path) as [content|] eqn:Ef; simpl; [|reflexivity].
  destruct (int (strip content)) as [pid|e] eqn:Ei; simpl.
  - unfold os_kill.
    destruct ((pid <? - 2 ^ 31) || (2 ^ 31 <=? pid)) eqn:Er; simpl;
      [reflexivity|].
    destruct (procs w !! pid) as [r|] eqn:Ep; simpl; [reflexivity|].
    unfold path_exists, os_remove, print. simpl.
    rewrite Ef. simpl. rewrite Ef. reflexivity.
  - rewrite (int_raises _ _ Ei). reflexivity.
Qed.

(** C9, as worded, fails: a PID file that does not hold a number gives
    a fourth outcome, an error report, and the file stays. *)
Lemma status_fourth_outcome :
  files w_garbled !! default_pid_file = Some "abc" ∧
  (status_daemon default_pid_file w_garbled).2 =
    print (OutErrorStatus ValueError) w_garbled ∧
  ¬ status_three_outcomes default_pid_file w_garbled.
Proof.
  split; [reflexivity|]. split; [vm_compute; reflexivity|].
  unfold status_three_outcomes. rewrite status_daemon_cases.
  intros [(H & _) | [(pid & _ & _ & H & _) | (_ & H & _)]];
    vm_compute in H; discriminate.
Qed.

(** C9, amended.  The status operation never raises, signals nothing and
    has four outcomes.  No PID file: it reports that the daemon is not
    running.  The file holds a process id that fits a C int and names a
    live process (signal 0 probes, it does not kill): it reports the
    daemon as running.  The file holds such an id and no process has it:
    it reports a stale file and deletes it.  The file holds anything
    else: it reports an error and leaves the file. *)
Theorem status_daemon_outcomes (path : string) (w : world) :
  ∃ w', status_daemon path w = (Ret tt, w') ∧
    procs w' = procs w ∧ pending w' = pending w ∧
    ((files w !! path = None ∧
      stdout w' = OutStatusNotRunning :: stdout w ∧ files w' = files w) ∨
     (∃ content pid,
        files w !! path = Some content ∧ int (strip content) = Ret pid ∧
        - 2 ^ 31 ≤ pid < 2 ^ 31 ∧ is_Some (procs w !! pid) ∧
        stdout w' = OutLogFile :: OutRunning pid :: stdout w ∧
        files w' = files w) ∨
     (∃ content pid,
        files w !! path = Some content ∧ int (strip content) = Ret pid ∧
        - 2 ^ 31 ≤ pid < 2 ^ 31 ∧ procs w !! pid = None ∧
        stdout w' = OutStale :: stdout w ∧
        files w' = delete path (files w)) ∨
     (∃ content e,
        files w !! path = Some content ∧
        (int (strip content) = Raise ValueError ∧ e = ValueError ∨
         ∃ pid, int (strip content) = Ret pid ∧
                ¬ (- 2 ^ 31 ≤ pid < 2 ^ 31) ∧ e = OverflowError) ∧
        stdout w' = OutErrorStatus e :: stdout w ∧ files w' = files w)).
Proof.
  eexists. split; [apply status_daemon_cases|].
  destruct (files w !! path) as [content|] eqn:Ef.
  - destruct (int (strip content)) as [pid|e] eqn:Ei.
    + destruct ((pid <? - 2 ^ 31) || (2 ^ 31 <=? pid)) eqn:Er.
      * assert (Hout : ¬ (- 2 ^ 31 ≤ pid < 2 ^ 31)).
        { apply orb_true_iff in Er as [Er|Er];
            [apply Z.ltb_lt in Er|apply Z.leb_le in Er]; lia. }
        split; [reflexivity|]. split; [reflexivity|].
        right; right; right. exists content, OverflowError.
        split; [reflexivity|]. split; [|split; reflexivity].
        right. exists pid. auto.
      * assert (Hin : - 2 ^ 31 ≤ pid < 2 ^ 31).
        { apply orb_false_iff in Er as [Er1 Er2].
          apply Z.ltb_ge in Er1. apply Z.leb_gt in Er2. lia. }
        destruct (procs w !! pid) as [r|] eqn:Ep.
        -- split; [reflexivity|]. split; [reflexivity|].
           right; left. exists content, pid.
           repeat (split; [first [reflexivity | assumption | eauto]|]).
           reflexivity.
        -- split; [reflexivity|]. split; [reflexivity|].
           right; right; left. exists content, pid.
           repeat (split; [first [reflexivity | assumption]|]).
           reflexivity.
    + pose proof (int_raises _ _ Ei) as ->.
      split; [reflexivity|]. split; [reflexivity|].
      right; right; right. exists content, ValueError.
      split; [reflexivity|]. split; [left; auto|]. split; reflexivity.
  - split; [reflexivity|]. split; [reflexivity|].
    left. repeat split.
Qed.

(** C2, as worded, fails: the daemon of [w_lingering] is alive, its PID
    file is still there when the grace period is over, and [stop_daemon]
    removes it. *)
Lemma stop_removes_lingering_pid_file :
  procs w_lingering !! 77 = Some Lingers ∧
  (stop_signal_and_wait default_pid_file w_lingering).1 = Ret 77 ∧
  is_Some (files (stop_signal_and_wait default_pid_file w_lingering).2
             !! default_pid_file) ∧
  files (stop_daemon default_pid_file w_lingering).2 !! default_pid_file
    = None ∧
  ¬ stop_keeps_pid_file default_pid_file w_lingering.
Proof.
  assert (Hgone : files (stop_daemon default_pid_file w_lingering).2
                    !! default_pid_file = None) by (vm_compute; reflexivity).
  assert (Hthere : is_Some
            (files (stop_signal_and_wait default_pid_file w_lingering).2
               !! default_pid_file)) by (vm_compute; eauto).
  repeat split; try assumption; try (vm_compute; reflexivity).
  intros H. specialize (H Hthere). rewrite Hgone in H.
  destruct H as [? H]. discriminate H.
Qed.

(** C2, amended.  On a running daemon whose PID file holds its process
    id, the stop operation reads the record, leaves a termination signal
    for that process, prints its message and waits the grace period; if
    the PID file is still there after that, it removes the file itself.
    Whatever the process did with the signal, no PID file is left. *)
Theorem stop_daemon_removes_pid_file (path content : string) (pid : Z)
    (r : reaction) (w : world) :
  files w !! path = Some content →
  int (strip content) = Ret pid →
  0 < pid < 2 ^ 31 →
  procs w !! pid = Some r →
  let w1 := time_sleep (print (OutStopped pid)
                          (with_pending (pending w ++ [pid]) w)) in
  stop_signal_and_wait path w = (Ret pid, w1) ∧
  stop_daemon path w = (Ret tt, with_files (delete path (files w1)) w1) ∧
  files (stop_daemon path w).2 !! path = None.
Proof.
  intros Hf Hi Hr Hp w1.
  assert (Hrange : (pid <? - 2 ^ 31) || (2 ^ 31 <=? pid) = false).
  { apply orb_false_iff. split; [apply Z.ltb_ge|apply Z.leb_gt]; lia. }
  assert (H1 : stop_signal_and_wait path w = (Ret pid, w1)).
  { unfold stop_signal_and_wait, read_file. unfold_m. simpl.
    rewrite Hf. simpl. rewrite Hi. simpl.
    unfold os_kill. rewrite Hrange, Hp. simpl. reflexivity. }
  assert (H2 : stop_daemon path w =
               (Ret tt, with_files (delete path (files w1)) w1)).
  { clearbody w1. unfold stop_daemon. unfold_m. rewrite H1. simpl.
    unfold path_exists, os_remove.
    destruct (files w1 !! path) as [c|] eqn:E; simpl.
    - rewrite E. reflexivity.
    - rewrite delete_id by exact E. destruct w1; reflexivity. }
  clearbody w1.
  split; [exact H1|]. split; [exact H2|].
  rewrite H2. simpl. apply lookup_delete_eq.
Qed.

Lemma stop_daemon_removes_pid_file_witness :
  files (stop_daemon default_pid_file w_lingering).2 !! default_pid_file
    = None.
Proof.
  apply (stop_daemon_removes_pid_file default_pid_file ("77" ++ nl)%string 77
           Lingers w_lingering);
    [reflexivity | reflexivity | lia | reflexivity].
Defined.

(** C8.  An invocation with no argument, without root privilege, or with
    an unknown command prints one message and exits with status 1; the
    files, the processes and the sockets are what they were: no PID file
    is written and no socket is opened. *)
Theorem main_rejects (argv : list string) (euid : Z) (evs : list event)
    (w : world) :
  (length argv < 2)%nat ∨ euid ≠ 0 ∨
  lower (default "" (argv !! 1%nat)) ∉ ["start"; "stop"; "status"; "restart"] →
  ∃ o, o ∈ [OutUsage; OutMustBeRoot;
            OutUnknown (lower (default "" (argv !! 1%nat)))] ∧
       main argv euid evs w = ExitWith 1 (print o w) ∧
       files (print o w) = files w ∧
       open_socks (print o w) = open_socks w ∧
       procs (print o w) = procs w ∧
       pending (print o w) = pending w.
Proof.
  intros H. unfold main, main_body. unfold_m.
  destruct (length argv <? 2)%nat eqn:El; simpl.
  { exists OutUsage. repeat split. rewrite !elem_of_cons. auto. }
  destruct (euid =? 0) eqn:Ee; simpl.
  2:{ exists OutMustBeRoot. repeat split. rewrite !elem_of_cons. auto. }
  destruct H as [H | [H | H]].
  { apply Nat.ltb_ge in El. lia. }
  { apply Z.eqb_eq in Ee. contradiction. }
  set (command := lower (default "" (argv !! 1%nat))) in *.
  assert (Hne : ∀ c, c ∈ ["start"; "stop"; "status"; "restart"] →
                     String.eqb command c = false).
  { intros c Hc. apply String.eqb_neq. intros ->. contradiction. }
  rewrite !Hne by (rewrite !elem_of_cons; auto 6). simpl.
  exists (OutUnknown command). repeat split. rewrite !elem_of_cons. auto.
Qed.

Lemma main_rejects_witness :
  ∃ o, main ["daemon_bt_gps.py"; "start"] 1000 [] w_lingering
       = ExitWith 1 (print o w_lingering).
Proof.
  destruct (main_rejects ["daemon_bt_gps.py"; "start"] 1000 [] w_lingering)
    as (o & _ & H & _).
  - right; left. lia.
  - exists o. exact H.
Defined.

End CliProps.

(** ** [json.dumps] and the encoding *)

Module JsonProps.
Import Py Json Daemon.
Local Open Scope list_scope.
Local Open Scope N_scope.

Lemma hexdigit_printable (n : N) : n < 16 → printable (hexdigit n).
Proof.
  intros H. unfold hexdigit, printable.
  destruct (n <? 10) eqn:E; [apply N.ltb_lt in E|apply N.ltb_ge in E]; lia.
Qed.

Lemma nibble_lt (n : N) : N.land n 15 < 16.
Proof.
  change 15 with (N.ones 4). rewrite N.land_ones.
  apply N.mod_lt. discriminate.
Qed.

Lemma u4_printable (n : N) : Forall printable (u4 n).
Proof.
  unfold u4.
  repeat (apply Forall_cons; split;
          [first [apply hexdigit_printable, nibble_lt
                 | unfold printable; lia]|]).
  apply Forall_nil_2.
Qed.

Lemma escape_char_printable (c : N) : Forall printable (escape_char c).
Proof.
  unfold escape_char.
  repeat (case_match;
          [repeat (apply Forall_cons; split; [unfold printable; lia|]);
           apply Forall_nil_2|]).
  destruct ((32 <=? c) && (c <=? 126)) eqn:E.
  - apply andb_true_iff in E as [E1 E2].
    apply N.leb_le in E1. apply N.leb_le in E2.
    apply Forall_cons; split; [unfold printable; lia|apply Forall_nil_2].
  - case_match; [apply u4_printable|].
    apply Forall_app; split; apply u4_printable.
Qed.

Lemma encode_string_printable (s : list N) : Forall printable (encode_string s).
Proof.
  unfold encode_string.
  apply Forall_app; split; [|apply Forall_app; split].
  - apply Forall_cons; split; [unfold printable; lia|apply Forall_nil_2].
  - induction s as [|c s IH]; simpl; [apply Forall_nil_2|].
    apply Forall_app; split; [apply escape_char_printable|exact IH].
  - apply Forall_cons; split; [unfold printable; lia|apply Forall_nil_2].
Qed.

(** Printable literals are checked by evaluation. *)
Ltac literal :=
  match goal with
  | |- ?P => apply (@bool_decide_unpack P _); vm_compute; exact I
  end.

Lemma uint_printable (u : Decimal.uint) :
  Forall printable (cps (NilEmpty.string_of_uint u)).
Proof.
  induction u; simpl; try apply Forall_nil_2;
    (apply Forall_cons; split; [unfold printable; simpl; lia|exact IHu]).
Qed.

Lemma str_int_printable (n : Z) : Forall printable (cps (str_int n)).
Proof.
  unfold str_int, NilZero.string_of_int.
  assert (H : ∀ u, Forall printable (cps (NilZero.string_of_uint u))).
  { intros u. unfold NilZero.string_of_uint.
    destruct u; try apply uint_printable. literal. }
  destruct (Z.to_int n) as [u|u]; [apply H|].
  change (cps (String "-" (NilZero.string_of_uint u)))
    with (45 :: cps (NilZero.string_of_uint u)).
  apply Forall_cons; split; [unfold printable; lia|apply H].
Qed.

Lemma encode_float_printable (f : pyfloat) : Forall printable (encode_float f).
Proof.
  destruct f as [repr| | |]; simpl; try literal.
  induction repr as [|c repr IH]; simpl; [apply Forall_nil_2|].
  apply Forall_cons; split; [|exact IH].
  destruct c; unfold printable; simpl; lia.
Qed.

Lemma encode_value_printable (v : pyval) (t : list N) :
  encode_value v = Ret t → Forall printable t.
Proof.
  destruct v as [|[|]|n|f|s|]; simpl; intros [= <-];
    first [apply str_int_printable | apply encode_float_printable
          | apply encode_string_printable | literal].
Qed.

Lemma encode_items_printable (d : list (string * pyval)) (items : list (list N)) :
  encode_items d = Ret items → Forall (Forall printable) items.
Proof.
  revert items. induction d as [|[k v] d IH]; intros items;
    cbn [encode_items].
  - intros [= <-]. apply Forall_nil_2.
  - unfold encode_item, bind. cbn [fst snd].
    destruct (encode_value v) as [t|] eqn:Ev; [|discriminate].
    destruct (encode_items d) as [xs|]; [|discriminate].
    intros Heq.
    assert (items = (encode_string (cps k) ++ cps ": " ++ t) :: xs) as ->
      by congruence.
    apply Forall_cons; split; [|apply IH; reflexivity].
    apply Forall_app; split; [apply encode_string_printable|].
    apply Forall_app; split; [literal|].
    eapply encode_value_printable, Ev.
Qed.

Lemma join_printable (items : list (list N)) :
  Forall (Forall printable) items → Forall printable (join items).
Proof.
  induction 1 as [|x r Hx Hr IH]; [apply Forall_nil_2|].
  destruct r as [|y r]; [exact Hx|].
  change (join (x :: y :: r)) with (x ++ cps ", " ++ join (y :: r)).
  apply Forall_app; split; [exact Hx|].
  apply Forall_app; split; [literal|exact IH].
Qed.

(** The text [json.dumps] makes is printable ASCII: it holds no line
    feed and no character beyond the ASCII range. *)
Lemma dumps_printable (d : list (string * pyval)) (body : list N) :
  dumps d = Ret body → Forall printable body.
Proof.
  unfold dumps, bind.
  destruct (encode_items d) as [items|] eqn:E; [|discriminate].
  intros Heq.
  assert (body = cps "{" ++ join items ++ cps "}") as -> by congruence.
  apply Forall_app; split; [literal|].
  apply Forall_app; split; [|literal].
  apply join_printable. eapply encode_items_printable, E.
Qed.

(** [json.dumps] raises nothing but [TypeError]. *)
Lemma dumps_raises (d : list (string * pyval)) (e : exn) :
  dumps d = Raise e → e = TypeError.
Proof.
  unfold dumps, bind.
  destruct (encode_items d) as [items|x] eqn:E; [discriminate|].
  intros [= <-]. revert x E.
  induction d as [|[k v] d IH]; intros x; cbn [encode_items];
    [discriminate|].
  unfold encode_item, bind. cbn [fst snd].
  destruct (encode_value v) as [t|y] eqn:Ev.
  - destruct (encode_items d) as [xs|y]; [discriminate|].
    intros [= <-]. apply IH. reflexivity.
  - intros [= <-]. destruct v as [|[|]|n|f|s|]; cbn in Ev; congruence.
Qed.

(** An ASCII text is encoded byte for byte. *)
Lemma encode_utf8_ascii (s : list N) :
  Forall (λ c, c < 128) s → encode_utf8 s = Ret (byte_of_N <$> s).
Proof.
  induction 1 as [|c s Hc Hs IH]; [reflexivity|].
  cbn [encode_utf8]. unfold utf8_char. rewrite (proj2 (N.ltb_lt c 128) Hc).
  unfold bind. rewrite IH. reflexivity.
Qed.

Lemma encode_utf8_line (body : list N) :
  Forall printable body →
  encode_utf8 (body ++ cps nl) =
    Ret ((byte_of_N <$> body) ++ [byte_of_N 10]).
Proof.
  intros H. rewrite encode_utf8_ascii.
  - rewrite fmap_app. reflexivity.
  - apply Forall_app; split.
    + eapply Forall_impl; [exact H|]. unfold printable. intros; simpl in *; lia.
    + apply Forall_cons; split; [simpl; lia|apply Forall_nil_2].
Qed.

End JsonProps.

(** ** The daemon machine *)

Module DaemonProps.
Import Py Sys Tracker Daemon TrackerProps JsonProps.
Local Open Scope list_scope.

(** The state [cleanup] leaves, written out. *)
Lemma cleanup_eq (sdptool : bool) (s : st) :
  cleanup sdptool s =
  (Ret tt,
   St (with_running false (self s))
      (with_log ((LInfo, MsgDaemonStopped) :: log (os s))
         (with_files (delete (pid_file (self s)) (files (os s)))
            (with_open_socks
               (from_option delete id (server_sock (self s))
                  (from_option delete id (client_sock (self s))
                     (open_socks (os s))))
               (with_sdp (if sdptool then false else sdp_registered (os s))
                  (os s)))))).
Proof.
  destruct (cleanup_returns sdptool s)
    as (s' & -> & Hself & Hfiles & Hsocks & Hsdp & Hprocs & Hpend & Hnext
        & Hwire & Hout & Hlog).
  f_equal. destruct s' as [t' w']; destruct w'; simpl in *.
  subst. reflexivity.
Qed.

Lemma signal_handler_eq {A} (signum : Z) (sdptool : bool) (s : st) :
  @signal_handler A signum sdptool s =
  (Raise (SystemExit 0),
   St (with_running false (self s))
      (with_log ((LInfo, MsgDaemonStopped) :: (LInfo, MsgSignal signum)
                   :: log (os s))
         (with_files (delete (pid_file (self s)) (files (os s)))
            (with_open_socks
               (from_option delete id (server_sock (self s))
                  (from_option delete id (client_sock (self s))
                     (open_socks (os s))))
               (with_sdp (if sdptool then false else sdp_registered (os s))
                  (os s)))))).
Proof.
  unfold signal_handler. unfold_m. simpl. rewrite cleanup_eq. reflexivity.
Qed.

(** A poll returns and leaves the state alone, unless a signal arrives
    during it: then the handler has run and its exit is swallowed. *)
Lemma get_gps_data_cases (o : wait (gmap string pyval)) (s : st) :
  (∃ d, get_gps_data o s = (Ret d, s)) ∨
  (∃ n c, o = Signalled n c ∧
     get_gps_data o s = (Ret None, (@signal_handler unit n c s).2)).
Proof.
  unfold get_gps_data. unfold_m. simpl.
  destruct (gps_session (self s)); [|eauto].
  destruct o as [r|e|n t]; simpl; [|eauto|].
  - destruct (r !! "class") as [c|]; [|eauto].
    case_bool_decide; [|eauto].
    destruct (r !! "lat"), (r !! "lon"); eauto.
  - right. exists n, t. split; [reflexivity|].
    rewrite !signal_handler_eq. reflexivity.
Qed.

#[local] Opaque signal_handler get_gps_data.

Ltac unfold_step :=
  unfold step, exec, at_run, at_accept, at_poll, at_send, at_sleep2,
    at_err_sleep, at_sleep1, run_test, serve_test, after_session,
    daemonize, make_discoverable, setup_bluetooth, register_sdp_service,
    setup_gps, accept_connection, await, truthy in *;
  unfold_m; cbn [at_ state self os fst snd] in *.

Ltac map_facts :=
  repeat match goal with
  | H : delete _ _ !! _ = Some _ |- _ =>
      apply lookup_delete_Some in H as [? H]
  | H : <[_ := _]> _ !! _ = Some _ |- _ =>
      apply lookup_insert_Some in H as [[? ?]|[? H]]
  end.

Ltac session_done H1 :=
  solve
    [ split; cbn;
      [ intros ? ? ?; map_facts; try congruence;
        match goal with
        | H : open_socks _ !! _ = Some (Accepted _) |- _ =>
            apply H1 in H; congruence
        end
      | intros ?; first [contradiction | reflexivity | assumption] ] ].

Lemma step_session_inv (m : machine) (e : event) :
  session_inv m → session_inv (step m e).
Proof.
  destruct m as [p [[lf pf ss cs gs rn ch] w]]. intros [H1 H2].
  cbn in H1, H2.
  destruct p, e; try (split; assumption); unfold_step.
  all: try (specialize (H2 I); subst cs).
  - destruct o; session_done H1.
  - destruct o as [[[] [] [] []]|x|n c]; rewrite ?signal_handler_eq; cbn;
      try (destruct (is_Exception x)); cbn; destruct ss; session_done H1.
  - destruct ss as [sfd|]; cbn; [|session_done H1].
    unfold is_open. cbn.
    destruct (bool_decide (is_Some (open_socks w !! sfd))); cbn;
      [|session_done H1].
    destruct o as [peer|x|n c]; rewrite ?signal_handler_eq; cbn;
      try (destruct (is_Exception x)); cbn; destruct rn; cbn;
      session_done H1.
  - destruct (get_gps_data_cases o
                (St (Tracker_ lf pf ss cs gs rn ch) w))
      as [[d ->]|(n & c & -> & ->)]; rewrite ?signal_handler_eq; cbn.
    + destruct d as [[|kv d]|]; cbn; try session_done H1.
      destruct cs; cbn;
        [rewrite ?bool_decide_eq_true_2 by eauto
        |rewrite ?bool_decide_eq_false_2 by (intros [? ?]; discriminate)];
        cbn; [|session_done H1].
      destruct (Json.dumps (kv :: d)) as [js|x]; cbn;
        try (destruct (is_Exception x)); session_done H1.
    + destruct ss, cs; session_done H1.
  - destruct cs as [fd|]; cbn.
    2:{ destruct rn; session_done H1. }
    destruct (Json.encode_utf8 json_str) as [data|x]; cbn.
    2:{ session_done H1. }
    destruct o as [[]|x|n c]; rewrite ?signal_handler_eq; cbn;
      unfold sock_send, is_open; cbn.
    + destruct (bool_decide (is_Some (open_socks w !! fd))); cbn;
        session_done H1.
    + session_done H1.
    + destruct ss; session_done H1.
  - destruct o as [[]|x|n c]; rewrite ?signal_handler_eq; cbn;
      try (destruct (is_Exception x)); cbn; destruct rn, cs, ss; cbn;
      session_done H1.
  - destruct o as [[]|x|n c]; rewrite ?signal_handler_eq; cbn;
      destruct rn, cs, ss; cbn; session_done H1.
  - destruct o as [[]|x|n c]; rewrite ?signal_handler_eq; cbn;
      destruct rn, ss; cbn; session_done H1.
Qed.

Lemma steps_session_inv (evs : list event) (m : machine) :
  session_inv m → session_inv (steps m evs).
Proof.
  revert m. induction evs as [|e evs IH]; intros m H; [exact H|].
  apply IH, step_session_inv, H.
Qed.

(** A map all of whose keys are one key holds at most one entry. *)
Lemma size_le_1 {A} (m : gmap nat A) (j : nat) :
  (∀ i x, m !! i = Some x → i = j) → (size m ≤ 1)%nat.
Proof.
  intros H. destruct (m !! j) as [x|] eqn:E.
  - assert (m = {[ j := x ]}) as ->.
    { apply map_eq. intros i. destruct (decide (i = j)) as [->|Hne].
      - rewrite lookup_singleton_eq. exact E.
      - rewrite lookup_singleton_ne by congruence.
        destruct (m !! i) as [y|] eqn:Ei; [|reflexivity].
        apply H in Ei. contradiction. }
    rewrite map_size_singleton. lia.
  - assert (m = ∅) as ->.
    { apply map_eq. intros i. rewrite lookup_empty.
      destruct (m !! i) as [y|] eqn:Ei; [|reflexivity].
      pose proof (H _ _ Ei) as ->. congruence. }
    rewrite map_size_empty. lia.
Qed.

Lemma sessions_lookup (w : world) (fd : nat) (k : sock_kind) :
  sessions w !! fd = Some k ↔
  ∃ peer, k = Accepted peer ∧ open_socks w !! fd = Some (Accepted peer).
Proof.
  unfold sessions. rewrite map_lookup_filter_Some. cbn. split.
  - intros [H Hk]. destruct k as [|peer]; [contradiction|]. eauto.
  - intros (peer & -> & H). split; [exact H|discriminate].
Qed.

(** C4.  Started in a world without sessions, the daemon never has more
    than one, whatever happens: at every blocking point of every run at
    most one accepted socket is open, none is open while the daemon is
    blocked in [accept()], and what ends that [accept()] never leaves
    the daemon in [accept()] again: an accepted peer is served first. *)
Theorem single_session (w : world) (evs : list event) :
  sessions w = ∅ →
  let m := steps (start_daemon w) evs in
  (size (sessions (os (state m))) ≤ 1)%nat ∧
  (at_ m = AtAccept → sessions (os (state m)) = ∅) ∧
  (∀ o, at_ m = AtAccept → at_ (step m (EvAccept o)) ≠ AtAccept).
Proof.
  intros Hw m.
  assert (Hinv : session_inv m).
  { apply steps_session_inv. split; cbn; [|reflexivity].
    intros fd peer H.
    assert (Hs : sessions w !! fd = Some (Accepted peer))
      by (apply sessions_lookup; eauto).
    rewrite Hw, lookup_empty in Hs. discriminate. }
  destruct Hinv as [H1 H2]. split; [|split].
  - destruct (client_sock (self (state m))) as [fd|] eqn:Ec.
    + apply (size_le_1 _ fd). intros i x Hi.
      apply sessions_lookup in Hi as (peer & -> & Hi).
      apply H1 in Hi. congruence.
    + apply (size_le_1 _ 0%nat). intros i x Hi.
      apply sessions_lookup in Hi as (peer & -> & Hi).
      apply H1 in Hi. congruence.
  - intros Hat. rewrite Hat in H2. specialize (H2 I).
    apply map_eq. intros fd. rewrite lookup_empty.
    destruct (sessions (os (state m)) !! fd) as [k|] eqn:E; [|reflexivity].
    apply sessions_lookup in E as (peer & -> & E).
    apply H1 in E. congruence.
  - intros o Hat. clearbody m. destruct m as [p [[lf pf ss cs gs rn ch] w']].
    cbn in Hat. subst p. unfold_step.
    destruct ss as [sfd|]; cbn; [|discriminate].
    unfold is_open. cbn.
    destruct (bool_decide (is_Some (open_socks w' !! sfd))); cbn;
      [|discriminate].
    destruct o as [peer|x|n c]; rewrite ?signal_handler_eq; cbn;
      try (destruct (is_Exception x)); cbn; destruct rn; cbn; discriminate.
Qed.

(** C5.  A write that fails ends the session at once: the text is not
    written again, the client socket is closed and forgotten, and the
    daemon, still running, goes to the sleep at the end of the loop of
    [run]; when that is over it is blocked in [accept()] again, and the
    next peer that connects gets a session. *)
Theorem write_failure_ends_session (m : machine) (js : list N)
    (fd sfd : nat) (e : exn) (peer : string) :
  at_ m = AtSend js →
  running (self (state m)) = true →
  client_sock (self (state m)) = Some fd →
  server_sock (self (state m)) = Some sfd →
  sfd ≠ fd →
  is_Some (open_socks (os (state m)) !! sfd) →
  let m1 := step m (EvSend (Failed e)) in
  let m2 := step m1 (EvWake (Done tt)) in
  let m3 := step m2 (EvAccept (Done peer)) in
  (at_ m1 = AtSleep1 ∧
   wire (os (state m1)) = wire (os (state m)) ∧
   client_sock (self (state m1)) = None ∧
   open_socks (os (state m1)) !! fd = None ∧
   running (self (state m1)) = true) ∧
  (at_ m2 = AtAccept ∧ state m2 = state m1) ∧
  (at_ m3 = AtPoll ∧
   running (self (state m3)) = true ∧
   ∃ fd', client_sock (self (state m3)) = Some fd' ∧
          open_socks (os (state m3)) !! fd' = Some (Accepted peer)).
Proof.
  destruct m as [p [[lf pf ss cs gs rn ch] w]]. cbn.
  intros -> -> -> -> Hne [k Hk].
  unfold_step.
  assert (Hopen : bool_decide (is_Some (delete fd (open_socks w) !! sfd))
                  = true).
  { apply bool_decide_eq_true_2. rewrite lookup_delete_ne by congruence.
    eauto. }
  destruct (Json.encode_utf8 js) as [data|x]; cbn;
    unfold is_open; cbn; rewrite Hopen; cbn;
    (split; [repeat split; apply lookup_delete_eq|]);
    (split; [split; reflexivity|]);
    (split; [reflexivity|]); (split; [reflexivity|]);
    eexists; (split; [reflexivity|]); apply lookup_insert_eq.
Qed.

Lemma write_failure_ends_session_witness :
  at_ (step (steps (start_daemon w_boot) (take 7 sample_run))
         (EvSend (Failed OSError))) = AtSleep1.
Proof.
  let js := eval vm_compute in
      (match at_ (steps (start_daemon w_boot) (take 7 sample_run)) with
       | AtSend j => j
       | _ => []
       end) in
  destruct (write_failure_ends_session
              (steps (start_daemon w_boot) (take 7 sample_run))
              js 4%nat 3%nat OSError "11:22:33:44:55:66")
    as [[H _] _].
  - vm_compute. reflexivity.
  - reflexivity.
  - reflexivity.
  - reflexivity.
  - lia.
  - vm_compute. eauto.
  - exact H.
Defined.

(** One poll without a fix, and the sleep after it. *)
Lemma quiet_poll (s : st) (o : wait (gmap string pyval)) :
  running (self s) = true → no_fix o →
  step (Machine AtPoll s) (EvPoll o) = Machine AtSleep2 s ∧
  step (Machine AtSleep2 s) (EvWake (Done tt)) = Machine AtPoll s.
Proof.
  intros Hrun Hno. split.
  - unfold_step. rewrite (get_gps_data_no_fix o s Hno). reflexivity.
  - unfold_step. cbn. rewrite Hrun. reflexivity.
Qed.

(** C6.  Over a span of polls that yield no fix, because the source
    raises or because its report is not a position fix, nothing is
    written to the client and the session goes on: at every instant of
    the span the state is what it was when the span began, wire and
    client socket included, and the daemon is in the loop of
    [send_gps_data], polling or sleeping. *)
Theorem no_fix_no_record (m : machine)
    (outcomes : list (wait (gmap string pyval))) (k : nat) :
  at_ m = AtPoll →
  running (self (state m)) = true →
  Forall no_fix outcomes →
  let m' := steps m (take k (polls outcomes)) in
  state m' = state m ∧
  wire (os (state m')) = wire (os (state m)) ∧
  (at_ m' = AtPoll ∨ at_ m' = AtSleep2) ∧
  steps m (polls outcomes) = m.
Proof.
  destruct m as [p s]. cbn. intros -> Hrun Hall.
  assert (Hgen : ∀ j, state (steps (Machine AtPoll s)
                               (take j (polls outcomes))) = s ∧
                      (at_ (steps (Machine AtPoll s)
                              (take j (polls outcomes))) = AtPoll ∨
                       at_ (steps (Machine AtPoll s)
                              (take j (polls outcomes))) = AtSleep2)).
  { induction Hall as [|o os Ho Hos IH]; intros j.
    - change (polls []) with (@nil event). rewrite take_nil. cbn. auto.
    - destruct (quiet_poll s o Hrun Ho) as [E1 E2].
      change (polls (o :: os)) with (EvPoll o :: EvWake (Done tt) :: polls os).
      destruct j as [|[|j]]; cbn [take steps foldl].
      + cbn. auto.
      + rewrite E1. cbn. auto.
      + rewrite E1, E2. apply IH. }
  destruct (Hgen k) as [Hs Hat]. rewrite Hs.
  split; [reflexivity|]. split; [reflexivity|]. split; [exact Hat|].
  clear Hgen Hs Hat k.
  induction Hall as [|o os Ho Hos IH]; [reflexivity|].
  destruct (quiet_poll s o Hrun Ho) as [E1 E2].
  change (polls (o :: os)) with (EvPoll o :: EvWake (Done tt) :: polls os).
  cbn [steps foldl]. rewrite E1, E2. exact IH.
Qed.

Lemma no_fix_no_record_witness :
  wire (os (state (steps (steps (start_daemon w_boot) (take 3 sample_run))
                     (take 3 (polls [Done sample_sky; Failed StopIteration;
                                     Done ∅])))))
  = wire (os (state (steps (start_daemon w_boot) (take 3 sample_run)))).
Proof.
  apply (no_fix_no_record
           (steps (start_daemon w_boot) (take 3 sample_run))
           [Done sample_sky; Failed StopIteration; Done ∅] 3).
  - reflexivity.
  - reflexivity.
  - repeat constructor; intros (H & _); vm_compute in H; discriminate.
Defined.

Ltac wire_done Hw :=
  solve [ split; cbn; [exact Hw | intros ? ?; discriminate] ].

Lemma sendable_record (js : list N) :
  sendable js →
  ∃ data, Json.encode_utf8 js = Ret data ∧ one_record data.
Proof.
  intros (r & lat & lon & body & Hc & Hlat & Hlon & Hd & ->).
  pose proof (dumps_printable _ _ Hd) as Hp.
  eexists. split; [apply encode_utf8_line, Hp|].
  exists r, lat, lon, body. repeat split; assumption.
Qed.

Lemma step_wire_inv (w0 : world) (m : machine) (e : event) :
  wire_inv w0 m → wire_inv w0 (step m e).
Proof.
  destruct m as [p [[lf pf ss cs gs rn ch] w]]. intros [Hw Hs].
  cbn in Hw, Hs.
  destruct p, e; try (split; assumption); unfold_step.
  - destruct o; wire_done Hw.
  - destruct o as [[[] [] [] []]|x|n c]; rewrite ?signal_handler_eq; cbn;
      try (destruct (is_Exception x)); cbn; wire_done Hw.
  - destruct ss as [sfd|]; cbn; [|wire_done Hw].
    unfold is_open. cbn.
    destruct (bool_decide (is_Some (open_socks w !! sfd))); cbn;
      [|wire_done Hw].
    destruct o as [peer|x|n c]; rewrite ?signal_handler_eq; cbn;
      try (destruct (is_Exception x)); cbn; destruct rn; cbn;
      wire_done Hw.
  - destruct (get_gps_data_cases o
                (St (Tracker_ lf pf ss cs gs rn ch) w))
      as [[d Hd]|(n & c & -> & ->)]; rewrite ?signal_handler_eq; cbn;
      [|wire_done Hw].
    rewrite Hd. cbn.
    destruct d as [[|kv d]|]; cbn; try wire_done Hw.
    destruct cs; cbn;
      [rewrite ?bool_decide_eq_true_2 by eauto
      |rewrite ?bool_decide_eq_false_2 by (intros [? ?]; discriminate)];
      cbn; [|wire_done Hw].
    destruct (Json.dumps (kv :: d)) as [body|x] eqn:Ej; cbn;
      try (destruct (is_Exception x)); try wire_done Hw.
    split; cbn; [exact Hw|]. intros js [= <-].
    assert (Hr : (get_gps_data o (St (Tracker_ lf pf ss (Some n) gs rn ch) w)).1
                 = Ret (Some (kv :: d))) by (rewrite Hd; reflexivity).
    apply get_gps_data_some in Hr
      as (r & lat & lon & _ & _ & Hc & Hlat & Hlon & Hrec).
    exists r, lat, lon, body. rewrite <- Hrec. auto.
  - destruct cs as [fd|]; cbn.
    2:{ destruct rn; wire_done Hw. }
    destruct (sendable_record json_str (Hs _ eq_refl))
      as (data & -> & Hrec). cbn.
    destruct o as [[]|x|n c]; rewrite ?signal_handler_eq; cbn;
      unfold sock_send, is_open; cbn; try wire_done Hw.
    destruct (bool_decide (is_Some (open_socks w !! fd))); cbn;
      [|wire_done Hw].
    split; cbn; [|intros ? ?; discriminate].
    destruct Hw as (new & -> & Hnew).
    exists ((fd, data) :: new). split; [reflexivity|].
    apply Forall_cons; split; [exact Hrec|exact Hnew].
  - destruct o as [[]|x|n c]; rewrite ?signal_handler_eq; cbn;
      try (destruct (is_Exception x)); cbn; destruct rn, cs; cbn;
      wire_done Hw.
  - destruct o as [[]|x|n c]; rewrite ?signal_handler_eq; cbn;
      destruct rn, cs; cbn; wire_done Hw.
  - destruct o as [[]|x|n c]; rewrite ?signal_handler_eq; cbn;
      destruct rn; cbn; wire_done Hw.
Qed.

Lemma steps_wire_inv (w0 : world) (evs : list event) (m : machine) :
  wire_inv w0 m → wire_inv w0 (steps m evs).
Proof.
  revert m. induction evs as [|e evs IH]; intros m H; [exact H|].
  apply IH, step_wire_inv, H.
Qed.

(** C7.  Whatever happens to the daemon, every payload it writes to a
    peer is one record: the UTF-8 bytes of the JSON object of a fix,
    with exactly the fields type (the text gps), latitude, longitude,
    altitude, speed and timestamp, a text of printable ASCII characters
    (so without a line feed inside), followed by one line feed.  A
    payload is written for a fix only: a poll that yields none writes
    nothing and goes to the sleep. *)
Theorem wire_records (w : world) (evs : list event) :
  let m := steps (start_daemon w) evs in
  (∃ new, wire (os (state m)) = new ++ wire w ∧
          Forall (λ x, one_record x.2) new) ∧
  (∀ o, at_ m = AtPoll → (get_gps_data o (state m)).1 = Ret None →
        wire (os (state (step m (EvPoll o)))) = wire (os (state m)) ∧
        at_ (step m (EvPoll o)) = AtSleep2).
Proof.
  intros m.
  assert (Hinv : wire_inv w m).
  { apply steps_wire_inv. split; cbn; [|intros ? ?; discriminate].
    exists []. split; [reflexivity|apply Forall_nil_2]. }
  split; [exact (proj1 Hinv)|].
  intros o Hat Hnone. clearbody m. destruct m as [p s]. cbn in *. subst p.
  unfold_step.
  destruct (get_gps_data_cases o s) as [[d Hd]|(n & c & -> & Hd)];
    rewrite Hd in *; cbn in *.
  - injection Hnone as ->. cbn. auto.
  - rewrite signal_handler_eq. cbn. auto.
Qed.

Lemma wire_records_witness :
  wire (os (state (step (steps (start_daemon w_boot) (take 3 sample_run))
                     (EvPoll (Done sample_sky)))))
  = wire (os (state (steps (start_daemon w_boot) (take 3 sample_run)))).
Proof.
  apply (proj2 (wire_records w_boot (take 3 sample_run))
           (Done sample_sky)).
  - reflexivity.
  - vm_compute. reflexivity.
Defined.

(** The sibling path: a termination signal, wherever it finds the
    daemon after [daemonize], removes the PID file. *)
Lemma signal_removes_pid_file {A} (signum : Z) (sdptool : bool) (s : st) :
  files (os (@signal_handler A signum sdptool s).2) !! pid_file (self s)
  = None.
Proof.
  rewrite signal_handler_eq. cbn. apply lookup_delete_eq.
Qed.

Ltac pid_done H :=
  solve [ cbn in *;
          first [ assumption
                | apply lookup_delete_eq
                | rewrite lookup_insert_eq; eauto
                | discriminate
                | contradiction ] ].

Lemma step_pid_inv (m : machine) (e : event) :
  benign e → pid_inv m → pid_inv (step m e).
Proof.
  destruct m as [p [[lf pf ss cs gs rn ch] w]]. intros Hb H.
  unfold pid_inv in *. cbn [at_ state self os] in H.
  destruct p, e; try exact H; unfold_step.
  - destruct o; pid_done H.
  - destruct o as [[[] b [] []]|x|n c]; cbn in Hb; try contradiction;
      try subst b; rewrite ?signal_handler_eq; cbn; pid_done H.
  - destruct ss as [sfd|]; cbn; [|destruct rn; pid_done H].
    unfold is_open. cbn.
    destruct (bool_decide (is_Some (open_socks w !! sfd))); cbn;
      [|destruct rn; pid_done H].
    destruct o as [peer|x|n c]; cbn in Hb; try rewrite Hb;
      rewrite ?signal_handler_eq; cbn; destruct rn; pid_done H.
  - destruct (get_gps_data_cases o
                (St (Tracker_ lf pf ss cs gs rn ch) w))
      as [[d ->]|(n & c & -> & ->)]; rewrite ?signal_handler_eq; cbn;
      [|pid_done H].
    destruct d as [[|kv d]|]; cbn; try (destruct rn; pid_done H).
    destruct cs; cbn;
      [rewrite ?bool_decide_eq_true_2 by eauto
      |rewrite ?bool_decide_eq_false_2 by (intros [? ?]; discriminate)];
      cbn; [|destruct rn; pid_done H].
    destruct (Json.dumps (kv :: d)) as [body|x] eqn:Ej; cbn;
      try rewrite (dumps_raises _ _ Ej); cbn; destruct rn; pid_done H.
  - destruct cs as [fd|]; cbn.
    2:{ destruct rn; pid_done H. }
    destruct (Json.encode_utf8 json_str) as [data|x]; cbn.
    2:{ destruct rn; pid_done H. }
    destruct o as [[]|x|n c]; rewrite ?signal_handler_eq; cbn;
      unfold sock_send, is_open; cbn;
      try destruct (bool_decide (is_Some (open_socks w !! fd))); cbn;
      try (destruct rn; pid_done H); pid_done H.
  - destruct o as [[]|x|n c]; cbn in Hb; try contradiction;
      rewrite ?signal_handler_eq; cbn; destruct rn, cs; pid_done H.
  - destruct o as [[]|x|n c]; cbn in Hb; try contradiction;
      rewrite ?signal_handler_eq; cbn; destruct rn, cs; pid_done H.
  - destruct o as [[]|x|n c]; cbn in Hb; try contradiction;
      rewrite ?signal_handler_eq; cbn; destruct rn; pid_done H.
Qed.

(** Apart from the failed startup and from crashes, the correspondence
    holds at every blocking point: started without a PID file, the
    daemon has one exactly while it is starting or running, and none
    once a signal has made it shut down. *)
Lemma pid_file_correspondence (w : world) (evs : list event) :
  files w !! pid_file init = None →
  Forall benign evs →
  let m := steps (start_daemon w) evs in
  pid_file_present m ↔ daemon_state m = Starting ∨ daemon_state m = Running.
Proof.
  intros Hw Hall m.
  assert (Hinv : pid_inv m).
  { subst m. assert (H0 : pid_inv (start_daemon w)) by exact Hw.
    revert H0. generalize (start_daemon w).
    induction Hall as [|e evs He Hevs IH]; intros m0 H0; [exact H0|].
    apply IH, step_pid_inv; assumption. }
  clearbody m. destruct m as [p s]. unfold pid_inv in Hinv.
  unfold pid_file_present, daemon_state. cbn in *.
  destruct p; try destruct (running (self s)); split;
    try (intros [? Habs]; rewrite Hinv in Habs; discriminate);
    try (intros [?|?]; discriminate); auto.
Qed.

(** C1.  The correspondence between the PID file and the lifecycle state
    breaks when the server cannot be opened: [daemonize] has written the
    PID file, [setup_bluetooth] fails, [run] logs the failure and
    returns, the process ends with status 0, and the PID file is still
    there, holding the process id.  The daemon is stopped and its PID
    file exists. *)
Theorem failed_startup_leaves_pid_file (w : world) (pid : Z) (a : setup) :
  bt_result a ≠ BtListening →
  let m := steps (start_daemon w) [EvDaemonize (Forked pid); EvSetup (Done a)] in
  at_ m = Exited 0 ∧
  daemon_state m = Stopped ∧
  files (os (state m)) !! pid_file (self (state m))
    = Some (str_int pid ++ nl)%string ∧
  ¬ (pid_file_present m ↔
     daemon_state m = Starting ∨ daemon_state m = Running).
Proof.
  intros Hbt m.
  assert (H : at_ m = Exited 0 ∧
              files (os (state m)) !! pid_file (self (state m))
              = Some (str_int pid ++ nl)%string).
  { subst m. destruct a as [d b sd g]. cbn in Hbt.
    unfold steps, start_daemon. cbn [foldl]. unfold_step.
    destruct b; [| |contradiction]; destruct d; cbn;
      (split; [reflexivity|apply lookup_insert_eq]). }
  destruct H as [Hat Hfile].
  assert (Hst : daemon_state m = Stopped)
    by (unfold daemon_state; rewrite Hat; reflexivity).
  repeat split; try assumption.
  intros [Hiff _]. unfold pid_file_present in Hiff.
  rewrite Hfile, Hst in Hiff.
  destruct Hiff as [?|?]; [eauto|discriminate|discriminate].
Qed.

Lemma failed_startup_leaves_pid_file_witness :
  files (os (state (steps (start_daemon w_boot)
                      [EvDaemonize (Forked 4242);
                       EvSetup (Done (Setup true BtBindFails SdpAdded true))])))
    !! "/var/run/gps_tracker.pid"
  = Some ("4242" ++ nl)%string.
Proof.
  apply (failed_startup_leaves_pid_file w_boot 4242
           (Setup true BtBindFails SdpAdded true)).
  discriminate.
Defined.

Lemma single_session_witness :
  (size (sessions (os (state (steps (start_daemon w_boot) sample_run)))) ≤ 1)%nat.
Proof.
  apply (single_session w_boot sample_run). reflexivity.
Defined.

End DaemonProps.

(** ** Further properties of the script *)

Module PidRecord.
Import Py Sys Tracker Daemon Cli CliProps.
Local Open Scope list_scope.

Ltac read_digit :=
  match goal with
  | |- context [digit_of ?c] =>
      let v := eval vm_compute in (digit_of c) in
      change (digit_of c) with v; cbv beta iota
  end.

(** The digits [int] reads are the number, once a digit has been seen. *)
Lemma int_digits_acc (u : Decimal.uint) (acc : positive) :
  int_digits ScanDigit (Z.pos acc) (NilEmpty.string_of_uint u)
  = Some (Z.pos (Pos.of_uint_acc u acc)).
Proof.
  revert acc. induction u; intros acc;
    cbn [NilEmpty.string_of_uint Pos.of_uint_acc]; [reflexivity|..];
    cbn [int_digits]; read_digit; rewrite <- IHu; f_equal; lia.
Qed.

Lemma int_digits_zero (u : Decimal.uint) :
  int_digits ScanDigit 0 (NilEmpty.string_of_uint u)
  = Some (Z.of_N (Pos.of_uint u)).
Proof.
  induction u; cbn [NilEmpty.string_of_uint Pos.of_uint]; [reflexivity|..];
    cbn [int_digits]; read_digit;
    first [exact IHu | apply (int_digits_acc u)].
Qed.

Lemma int_digits_start (u : Decimal.uint) :
  u ≠ Decimal.Nil →
  int_digits ScanStart 0 (NilEmpty.string_of_uint u)
  = Some (Z.of_N (Pos.of_uint u)).
Proof.
  destruct u; [contradiction|..]; intros _;
    cbn [NilEmpty.string_of_uint Pos.of_uint int_digits]; read_digit;
    first [apply int_digits_zero | apply (int_digits_acc u)].
Qed.

Lemma uint_no_space (u : Decimal.uint) :
  Forall (λ c, is_space c = false)
    (list_ascii_of_string (NilEmpty.string_of_uint u)).
Proof.
  induction u; cbn [NilEmpty.string_of_uint list_ascii_of_string];
    [apply Forall_nil_2|..];
    (apply Forall_cons; split; [vm_compute; reflexivity|exact IHu]).
Qed.

(** A text without white space is stripped to itself, with or without a
    line feed after it. *)
Lemma append_cons (c : ascii) (r t : string) :
  (String c r ++ t)%string = String c (r ++ t)%string.
Proof. reflexivity. Qed.

Lemma lstrip_clean (s t : string) :
  Forall (λ c, is_space c = false) (list_ascii_of_string s) →
  s ≠ EmptyString → lstrip (s ++ t)%string = (s ++ t)%string.
Proof.
  intros H Hne. destruct s as [|c r]; [contradiction|].
  rewrite append_cons. cbn [lstrip list_ascii_of_string] in *.
  apply Forall_cons in H as [-> _]. reflexivity.
Qed.

Lemma rstrip_clean (s : string) :
  Forall (λ c, is_space c = false) (list_ascii_of_string s) →
  rstrip s = s ∧ rstrip (s ++ nl)%string = s.
Proof.
  induction s as [|c r IH]; intros H; [split; reflexivity|].
  cbn [list_ascii_of_string] in H. apply Forall_cons in H as [Hc Hr].
  destruct (IH Hr) as [IH1 IH2].
  rewrite append_cons. cbn [rstrip]. rewrite IH1, IH2.
  destruct r; [rewrite Hc|]; split; reflexivity.
Qed.

Lemma strip_clean (s : string) :
  Forall (λ c, is_space c = false) (list_ascii_of_string s) →
  strip s = s ∧ strip (s ++ nl)%string = s.
Proof.
  intros H. unfold strip. destruct (string_dec s EmptyString) as [->|Hne].
  - split; reflexivity.
  - rewrite (lstrip_clean s nl H Hne).
    replace (lstrip s) with s.
    + apply rstrip_clean, H.
    + pose proof (lstrip_clean s EmptyString H Hne) as E.
      assert (Happ : (s ++ "")%string = s).
      { clear. induction s as [|c r IH]; [reflexivity|].
        rewrite append_cons, IH. reflexivity. }
      rewrite Happ in E. symmetry. exact E.
Qed.

Lemma unsigned_body (u : Decimal.uint) :
  u ≠ Decimal.Nil →
  match NilEmpty.string_of_uint u with
  | String "-" t => Z.opp <$> int_digits ScanStart 0 t
  | String "+" t => int_digits ScanStart 0 t
  | t => int_digits ScanStart 0 t
  end = int_digits ScanStart 0 (NilEmpty.string_of_uint u).
Proof. destruct u; [contradiction|..]; reflexivity. Qed.

(** The decimal digits of an integer and a line feed are read back by
    [int(text.strip())] as that integer. *)
Lemma read_back (n : Z) :
  int (strip (str_int n ++ nl)%string) = Ret n.
Proof.
  unfold str_int, NilZero.string_of_int, Z.to_int.
  destruct n as [|p|p]; [vm_compute; reflexivity|..].
  - pose proof (DecimalPos.Unsigned.to_uint_nonnil p) as Hnil.
    assert (Hs : NilZero.string_of_uint (Pos.to_uint p)
                 = NilEmpty.string_of_uint (Pos.to_uint p)).
    { unfold NilZero.string_of_uint.
      destruct (Pos.to_uint p); [contradiction|..]; reflexivity. }
    rewrite Hs, (proj2 (strip_clean _ (uint_no_space _))).
    unfold int. rewrite (proj1 (strip_clean _ (uint_no_space _))).
    rewrite unsigned_body by exact Hnil.
    rewrite int_digits_start by exact Hnil.
    rewrite DecimalPos.Unsigned.of_to. reflexivity.
  - pose proof (DecimalPos.Unsigned.to_uint_nonnil p) as Hnil.
    assert (Hs : NilZero.string_of_uint (Pos.to_uint p)
                 = NilEmpty.string_of_uint (Pos.to_uint p)).
    { unfold NilZero.string_of_uint.
      destruct (Pos.to_uint p); [contradiction|..]; reflexivity. }
    rewrite Hs.
    assert (Hsp : Forall (λ c, is_space c = false)
                    (list_ascii_of_string
                       (String "-" (NilEmpty.string_of_uint (Pos.to_uint p))))).
    { cbn [list_ascii_of_string]. apply Forall_cons; split;
        [vm_compute; reflexivity|apply uint_no_space]. }
    rewrite (proj2 (strip_clean _ Hsp)).
    unfold int. rewrite (proj1 (strip_clean _ Hsp)).
    rewrite int_digits_start by exact Hnil.
    rewrite DecimalPos.Unsigned.of_to. reflexivity.
Qed.

End PidRecord.

Module CliMore.
Import Py Sys Tracker Daemon Cli Scenarios CliProps PidRecord.
Local Open Scope list_scope.

#[local] Opaque time_sleep.

(** What [stop_daemon] does, case by case. *)
Lemma stop_daemon_cases (path : string) (w : world) :
  stop_daemon path w =
  (Ret tt,
   match files w !! path with
   | None => print OutNotRunning w
   | Some content =>
       match int (strip content) with
       | Raise e => print (OutErrorStopping e) w
       | Ret pid =>
           if (pid <? - 2 ^ 31) || (2 ^ 31 <=? pid)
           then print (OutErrorStopping OverflowError) w
           else match procs w !! pid with
                | None => print (OutErrorStopping ProcessLookupError) w
                | Some _ =>
                    let w1 := time_sleep
                                (print (OutStopped pid)
                                   (with_pending (pending w ++ [pid]) w)) in
                    with_files (delete path (files w1)) w1
                end
       end
   end).
Proof.
  unfold stop_daemon, stop_signal_and_wait, read_file. unfold_m. simpl.
  destruct (files w !! path) as [content|] eqn:Ef; simpl; [|reflexivity].
  destruct (int (strip content)) as [pid|e] eqn:Ei; simpl.
  - unfold os_kill.
    destruct ((pid <? - 2 ^ 31) || (2 ^ 31 <=? pid)) eqn:Er; simpl;
      [reflexivity|].
    destruct (procs w !! pid) as [r|] eqn:Ep; simpl; [|reflexivity].
    set (w1 := time_sleep _). clearbody w1.
    unfold path_exists, os_remove.
    destruct (files w1 !! path) as [c|] eqn:E; simpl.
    + rewrite ?E. reflexivity.
    + rewrite delete_id by exact E. destruct w1; reflexivity.
  - rewrite (int_raises _ _ Ei). reflexivity.
Qed.

#[local] Transparent time_sleep.

(** X2.  Stop on anything but a live daemon is harmless: when the PID
    file is missing, does not hold a process id, or names a process
    that is gone, [stop_daemon] returns, prints one line (not running
    exactly when the file is missing, an error otherwise), signals
    nothing and leaves every file, the stale PID file included, in
    place. *)
Theorem stop_without_daemon (path : string) (w : world) :
  ¬ names_process path w →
  ∃ o, stop_daemon path w = (Ret tt, print o w) ∧
       pending (print o w) = pending w ∧
       files (print o w) = files w ∧
       (o = OutNotRunning ↔ files w !! path = None) ∧
       (o = OutNotRunning ∨ ∃ e, o = OutErrorStopping e).
Proof.
  intros Hno. rewrite stop_daemon_cases.
  destruct (files w !! path) as [content|] eqn:Ef.
  - destruct (int (strip content)) as [pid|e] eqn:Ei.
    + destruct ((pid <? - 2 ^ 31) || (2 ^ 31 <=? pid)) eqn:Er.
      * eexists. split; [reflexivity|]. repeat split; try discriminate.
        right. eauto.
      * destruct (procs w !! pid) as [r|] eqn:Ep.
        -- exfalso. apply Hno. exists content, pid.
           apply orb_false_iff in Er as [Er1 Er2].
           apply Z.ltb_ge in Er1. apply Z.leb_gt in Er2.
           repeat split; eauto.
        -- eexists. split; [reflexivity|]. repeat split; try discriminate.
           right. eauto.
    + eexists. split; [reflexivity|]. repeat split; try discriminate.
      right. eauto.
  - exists OutNotRunning. repeat split. left. reflexivity.
Qed.

Lemma stop_without_daemon_witness :
  ∃ o, stop_daemon default_pid_file w_garbled = (Ret tt, print o w_garbled).
Proof.
  destruct (stop_without_daemon default_pid_file w_garbled) as (o & H & _).
  - intros (content & pid & Hf & Hi & _).
    vm_compute in Hf. injection Hf as <-. vm_compute in Hi. discriminate.
  - exists o. exact H.
Defined.

(** A lingering process survives the grace period. *)
Lemma lingering_survives (pid : Z) (l : list Z) (w : world) :
  procs w !! pid = Some Lingers →
  procs (foldl deliver w l) !! pid = Some Lingers.
Proof.
  revert w. induction l as [|q l IH]; intros w H; [exact H|].
  cbn [foldl]. apply IH. unfold deliver.
  destruct (decide (q = pid)) as [->|Hne].
  - rewrite H. exact H.
  - destruct (procs w !! q) as [[f| |]|]; cbn;
      rewrite ?lookup_delete_ne by exact Hne; exact H.
Qed.

(** X3.  After a stop, the status command reports a daemon that is not
    running, whatever became of the process: when the daemon did not
    finish within the grace period it is still alive, yet its PID file is
    gone and status says not running. *)
Theorem status_after_stop (path content : string) (pid : Z) (r : reaction)
    (w : world) :
  files w !! path = Some content →
  int (strip content) = Ret pid →
  0 < pid < 2 ^ 31 →
  procs w !! pid = Some r →
  let w' := (stop_daemon path w).2 in
  status_daemon path w' = (Ret tt, print OutStatusNotRunning w') ∧
  (r = Lingers → procs w' !! pid = Some Lingers).
Proof.
  intros Hf Hi Hr Hp w'. subst w'.
  rewrite stop_daemon_cases. cbn [snd]. rewrite Hf, Hi.
  assert (Hrange : (pid <? - 2 ^ 31) || (2 ^ 31 <=? pid) = false).
  { apply orb_false_iff. split; [apply Z.ltb_ge|apply Z.leb_gt]; lia. }
  rewrite Hrange, Hp. cbv zeta. split.
  - rewrite status_daemon_cases. cbn [files with_files].
    rewrite lookup_delete_eq. reflexivity.
  - intros ->. unfold time_sleep. cbn.
    apply lingering_survives. exact Hp.
Qed.

Lemma status_after_stop_witness :
  procs (stop_daemon default_pid_file w_lingering).2 !! 77 = Some Lingers.
Proof.
  apply (status_after_stop default_pid_file ("77" ++ nl)%string 77 Lingers
           w_lingering);
    [reflexivity | reflexivity | lia | reflexivity | reflexivity].
Defined.

Lemma lower_char_idem (c : ascii) : lower_char (lower_char c) = lower_char c.
Proof. destruct c as [[] [] [] [] [] [] [] []]; reflexivity. Qed.

Lemma lower_idem (s : string) : lower (lower s) = lower s.
Proof.
  induction s as [|c r IH]; [reflexivity|].
  cbn [lower]. rewrite lower_char_idem, IH. reflexivity.
Qed.

(** X4.  The command is matched without regard to case, and neither the
    script name nor further arguments matter: an invocation behaves as
    the one with the lower-case command alone. *)
Theorem main_command_case (a0 a0' c : string) (rest : list string)
    (euid : Z) (evs : list event) (w : world) :
  main (a0 :: c :: rest) euid evs w = main [a0'; lower c] euid evs w.
Proof.
  unfold main, main_body. cbn [length Nat.ltb Nat.leb].
  change ((a0 :: c :: rest) !! 1%nat) with (Some c).
  change ([a0'; lower c] !! 1%nat) with (Some (lower c)).
  cbn [default from_option id]. rewrite lower_idem. reflexivity.
Qed.



End CliMore.

Module DaemonMore.
Import Py Sys Tracker Daemon Cli Scenarios.
Import TrackerProps JsonProps DaemonProps CliProps PidRecord.
Local Open Scope list_scope.

(** A process that has exited stays so. *)
Lemma exited_absorbing (c : Z) (s : st) (evs : list event) :
  steps (Machine (Exited c) s) evs = Machine (Exited c) s.
Proof.
  induction evs as [|e evs IH]; [reflexivity|].
  cbn [steps foldl] in *. destruct e; exact IH.
Qed.

(** A signal during a poll that blocks: the handler runs and its exit
    is swallowed. *)
Lemma get_gps_data_signalled (n : Z) (c : bool) (s : st) :
  is_Some (gps_session (self s)) →
  get_gps_data (Signalled n c) s
  = (Ret None, (@signal_handler (gmap string pyval) n c s).2).
Proof.
  intros [g Hg]. unfold get_gps_data. TrackerProps.unfold_m. simpl.
  rewrite Hg. simpl. rewrite !signal_handler_eq. reflexivity.
Qed.

(** A poll that returns a fix. *)
Lemma get_gps_data_fix (r : gmap string pyval) (lat lon : pyval) (s : st) :
  is_Some (gps_session (self s)) →
  r !! "class" = Some (PStr (cps "TPV")) →
  r !! "lat" = Some lat → r !! "lon" = Some lon →
  get_gps_data (Done r) s = (Ret (Some (gps_record r lat lon)), s).
Proof.
  intros [g Hg] Hc Hlat Hlon. unfold get_gps_data.
  TrackerProps.unfold_m. simpl. rewrite Hg. simpl.
  destruct (r !! "class") as [c|]; [|discriminate].
  injection Hc as ->.
  rewrite bool_decide_eq_true_2 by reflexivity.
  rewrite Hlat, Hlon. reflexivity.
Qed.

#[local] Opaque signal_handler get_gps_data.

Ltac listen :=
  eexists; split; [reflexivity|]; split;
  [ rewrite ?lookup_insert_eq;
    rewrite ?lookup_insert_ne, ?lookup_delete_ne
      by first [lia | congruence | assumption];
    eauto
  | split;
    [ cbn; lia
    | intros ? Heq;
      first [ discriminate
            | injection Heq as <-; first [assumption | lia | congruence] ] ] ].

Ltac armed_done :=
  solve
    [ unfold armed, listening in *; cbn in *;
      repeat match goal with
             | H : _ ∧ _ |- _ => destruct H
             | H : ∃ _, _ |- _ => destruct H
             | H : true = true → _ |- _ => specialize (H eq_refl)
             | H : Some _ = Some _ |- _ => injection H as ->
             | H : ∀ c, Some ?x = Some c → _ |- _ =>
                 pose proof (H _ eq_refl); clear H
             end;
      subst;
      repeat match goal with
             | |- _ ∧ _ => split
             | |- false = true → _ => discriminate
             | |- true = true → _ => intros _
             end;
      first [ exact I | reflexivity | discriminate | eauto; fail | listen ] ].

Lemma step_armed (m : machine) (e : event) : armed m → armed (step m e).
Proof.
  destruct m as [p [[lf pf ss cs gs rn ch] w]]. intros H.
  destruct p, e; try exact H; unfold_step.
  - destruct o; armed_done.
  - destruct o as [[[] [] [] []]|x|n c]; rewrite ?signal_handler_eq; cbn;
      try (destruct (is_Exception x)); cbn; armed_done.
  - destruct ss as [sfd|]; cbn; [|armed_done].
    unfold is_open. cbn.
    destruct (bool_decide (is_Some (open_socks w !! sfd))); cbn;
      [|armed_done].
    destruct o as [peer|x|n c]; rewrite ?signal_handler_eq; cbn;
      try (destruct (is_Exception x)); cbn; destruct rn; cbn;
      armed_done.
  - destruct (get_gps_data_cases o
                (St (Tracker_ lf pf ss cs gs rn ch) w))
      as [[d ->]|(n & c & -> & ->)]; rewrite ?signal_handler_eq; cbn;
      [|armed_done].
    destruct d as [[|kv d]|]; cbn; try armed_done.
    destruct cs; cbn;
      [rewrite ?bool_decide_eq_true_2 by eauto
      |rewrite ?bool_decide_eq_false_2 by (intros [? ?]; discriminate)];
      cbn; [|armed_done].
    destruct (Json.dumps (kv :: d)) as [body|x] eqn:Ej; cbn;
      try rewrite (dumps_raises _ _ Ej); cbn; armed_done.
  - destruct cs as [fd|]; cbn.
    2:{ destruct rn; armed_done. }
    destruct (Json.encode_utf8 json_str) as [data|x]; cbn.
    2:{ destruct rn; armed_done. }
    destruct o as [[]|x|n c]; rewrite ?signal_handler_eq; cbn;
      unfold sock_send, is_open; cbn;
      try destruct (bool_decide (is_Some (open_socks w !! fd))); cbn;
      destruct rn; armed_done.
  - destruct o as [[]|x|n c]; rewrite ?signal_handler_eq; cbn;
      try (destruct (is_Exception x)); cbn; destruct rn, cs; cbn;
      armed_done.
  - destruct o as [[]|x|n c]; rewrite ?signal_handler_eq; cbn;
      destruct rn, cs; cbn; armed_done.
  - destruct o as [[]|x|n c]; rewrite ?signal_handler_eq; cbn;
      destruct rn; cbn; armed_done.
Qed.

Lemma steps_armed (evs : list event) (m : machine) :
  armed m → armed (steps m evs).
Proof.
  revert m. induction evs as [|e evs IH]; intros m H; [exact H|].
  apply IH, step_armed, H.
Qed.


Ltac gone :=
  first [ apply lookup_delete_eq
        | apply lookup_delete_None; right; gone ].

Ltac shut :=
  repeat split; try reflexivity; try solve [gone];
  try (intros ? [E|E]; try discriminate; injection E as <-; solve [gone]).

Ltac unfold_step_in E :=
  unfold step, exec, at_run, at_accept, at_poll, at_send, at_sleep2,
    at_err_sleep, at_sleep1, run_test, serve_test, after_session,
    daemonize, make_discoverable, setup_bluetooth, register_sdp_service,
    setup_gps, accept_connection, await, truthy in E;
  unfold mbind, ret, raise, try_except, try_excepts, lift, of_res, bare,
    get_self, get_os, set_self, set_os, lift_os, log_ in E;
  cbn [at_ state self os fst snd] in E.

(** The innermost step of the goal is computed; [tac] does the
    rewriting the step needs before it reduces. *)
Ltac advance tac :=
  match goal with
  | |- context [step (Machine ?p ?s) ?e] =>
      let m1 := fresh "m" in
      let E := fresh "E" in
      remember (step (Machine p s) e) as m1 eqn:E;
      unfold_step_in E; tac E; cbn in E; subst m1
  end.

Lemma start_armed (w : world) : armed (start_daemon w).
Proof. reflexivity. Qed.

(** X6.  Across every run, the daemon blocks in [accept()], in a poll
    or in a send only while [running] holds, and as long as [running]
    holds inside the loops its listening socket is open and is not the
    client's: closing a client never closes the server. *)
Theorem server_listens_while_running (w : world) (evs : list event) :
  let m := steps (start_daemon w) evs in
  (match at_ m with
   | AtAccept | AtPoll | AtSend _ => running (self (state m)) = true
   | _ => True
   end) ∧
  (match at_ m with
   | AtDaemonize | AtRun | Exited _ => True
   | _ => running (self (state m)) = true → listening (state m)
   end).
Proof.
  intros m. pose proof (steps_armed evs _ (start_armed w)) as H.
  fold m in H. clearbody m. destruct m as [p s]. unfold armed in H.
  cbn in *. destruct p; try tauto.
Qed.

(** X7.  A termination signal shuts the daemon down from wherever it is
    blocked.  At the setup, in [accept()] and in the sleeps the exit is
    immediate; in a poll and in a send the exit the handler asks for is
    swallowed by the bare [except], and the script still leaves both
    loops during the next two sleeps.  In every case the process ends
    with status 0, [running] cleared, the PID file removed, client and
    server sockets closed, and nothing more written to the peer. *)
Theorem signal_shuts_down (w : world) (evs : list event) (signum : Z)
    (sdptool : bool) :
  let m := steps (start_daemon w) evs in
  at_ m ≠ AtDaemonize →
  (∀ c, at_ m ≠ Exited c) →
  (at_ m = AtPoll → is_Some (gps_session (self (state m)))) →
  let m' := steps m [signal_at (at_ m) signum sdptool;
                     EvWake (Done tt); EvWake (Done tt)] in
  at_ m' = Exited 0 ∧
  running (self (state m')) = false ∧
  files (os (state m')) !! pid_file (self (state m)) = None ∧
  (∀ fd, client_sock (self (state m)) = Some fd ∨
         server_sock (self (state m)) = Some fd →
         open_socks (os (state m')) !! fd = None) ∧
  wire (os (state m')) = wire (os (state m)).
Proof.
  intros m Hd He Hg m'.
  pose proof (steps_armed evs _ (start_armed w)) as Ha. fold m in Ha.
  assert (Hw : wire_inv w m).
  { apply steps_wire_inv. split; cbn; [|intros ? ?; discriminate].
    exists []. split; [reflexivity|apply Forall_nil_2]. }
  destruct Hw as [_ Hs]. subst m'. clearbody m.
  destruct m as [p [[lf pf ss cs gs rn ch] w']]. cbn in Hd, He, Hg, Hs.
  unfold armed, listening in Ha. cbn in Ha.
  destruct p; unfold signal_at;
    try (exfalso; first [apply Hd; reflexivity | eapply He; reflexivity]);
    match goal with
    | |- context [steps ?M [?e1; ?e2; ?e3]] =>
        change (steps M [e1; e2; e3]) with (step (step (step M e1) e2) e3)
    end.
  - advance ltac:(fun E => rewrite !signal_handler_eq in E).
    do 2 advance ltac:(fun E => idtac).
    destruct cs, ss; cbn; shut.
  - destruct Ha as (_ & sfd & -> & Hopen & _).
    advance ltac:(fun E =>
      cbn in E; unfold is_open in E; cbn in E;
      rewrite bool_decide_eq_true_2 in E by exact Hopen; cbn in E;
      rewrite !signal_handler_eq in E).
    do 2 advance ltac:(fun E => idtac).
    destruct cs; cbn; shut.
  - specialize (Hg eq_refl).
    advance ltac:(fun E =>
      rewrite get_gps_data_signalled in E by exact Hg;
      rewrite !signal_handler_eq in E).
    advance ltac:(fun E => destruct cs).
    + advance ltac:(fun E => idtac). destruct ss; cbn; shut.
    + advance ltac:(fun E => idtac). destruct ss; cbn; shut.
  - destruct Ha as (_ & _ & [cfd ->]).
    destruct (sendable_record json_str (Hs _ eq_refl)) as (data & Hdata & _).
    advance ltac:(fun E =>
      rewrite Hdata in E; cbn in E; rewrite !signal_handler_eq in E).
    do 2 advance ltac:(fun E => idtac).
    destruct ss; cbn; shut.
  - advance ltac:(fun E => rewrite !signal_handler_eq in E).
    do 2 advance ltac:(fun E => idtac).
    destruct cs, ss; cbn; shut.
  - advance ltac:(fun E => rewrite !signal_handler_eq in E).
    do 2 advance ltac:(fun E => idtac).
    destruct cs, ss; cbn; shut.
  - advance ltac:(fun E => rewrite !signal_handler_eq in E).
    do 2 advance ltac:(fun E => idtac).
    destruct cs, ss; cbn; shut.
Qed.

Lemma signal_shuts_down_witness :
  at_ (steps (steps (start_daemon w_boot) (take 3 sample_run))
         [signal_at (at_ (steps (start_daemon w_boot) (take 3 sample_run)))
            15 true;
          EvWake (Done tt); EvWake (Done tt)]) = Exited 0.
Proof.
  destruct (signal_shuts_down w_boot (take 3 sample_run) 15 true)
    as [H _].
  - vm_compute. discriminate.
  - intros c. vm_compute. discriminate.
  - intros _. vm_compute. eauto.
  - exact H.
Defined.

(** One step of a daemon on its way out. *)
Lemma step_winding_down (m : machine) (e : event) :
  winding_down m →
  winding_down (step m e) ∧
  wire (os (state (step m e))) = wire (os (state m)) ∧
  open_socks (os (state (step m e))) ⊆ open_socks (os (state m)).
Proof.
  destruct m as [p [[lf pf ss cs gs rn ch] w]]. intros [Hr Hp].
  cbn in Hr, Hp. subst rn.
  assert (Hsub : ∀ (a b : option nat) (o : gmap nat sock_kind),
            from_option delete id b (from_option delete id a o) ⊆ o).
  { intros [a|] [b|] o; cbn; try reflexivity;
      repeat (etrans; [apply delete_subseteq|]); reflexivity. }
  destruct p; try contradiction;
    destruct e; try (split; [split; [reflexivity|exact I]|split; reflexivity]);
    unfold_step;
    destruct o as [[]|x|n c]; rewrite ?signal_handler_eq; cbn;
    try (destruct (is_Exception x)); cbn;
    try destruct cs; cbn;
    (split; [split; [reflexivity|exact I]|]);
    (split; [reflexivity|]);
    first [ reflexivity | apply delete_subseteq | apply Hsub
          | apply (Hsub (Some _)) | apply (Hsub None) ].
Qed.

(** X8.  Once [running] is cleared and the daemon is in one of its
    sleeps, nothing that happens makes it serve again: whatever events
    follow, it stays in the sleeps or exits, it writes nothing to a
    peer, and it opens no socket, so it accepts no peer. *)
Theorem winding_down_is_silent (m : machine) (evs : list event) :
  winding_down m →
  let m' := steps m evs in
  winding_down m' ∧
  wire (os (state m')) = wire (os (state m)) ∧
  open_socks (os (state m')) ⊆ open_socks (os (state m)).
Proof.
  revert m. induction evs as [|e evs IH]; intros m H; cbn zeta.
  - split; [exact H|]. split; reflexivity.
  - destruct (step_winding_down m e H) as (H1 & Hw1 & Ho1).
    destruct (IH _ H1) as (H2 & Hw2 & Ho2). cbn zeta in *.
    change (steps m (e :: evs)) with (steps (step m e) evs).
    split; [exact H2|]. split; [congruence|]. etrans; eassumption.
Qed.

Lemma winding_down_is_silent_witness :
  wire (os (state (steps
    (step (steps (start_daemon w_boot) (take 3 sample_run))
       (EvPoll (Signalled 15 true)))
    [EvWake (Done tt); EvAccept (Done "AA"); EvPoll (Done sample_fix)])))
  = wire (os (state
    (step (steps (start_daemon w_boot) (take 3 sample_run))
       (EvPoll (Signalled 15 true))))).
Proof.
  apply (winding_down_is_silent
           (step (steps (start_daemon w_boot) (take 3 sample_run))
              (EvPoll (Signalled 15 true)))).
  vm_compute. split; [reflexivity|exact I].
Defined.

(** [json.dumps] refuses a dict that holds an object it does not know. *)
Lemma dumps_object (d : list (string * pyval)) :
  PObject ∈ d.*2 → Json.dumps d = Raise TypeError.
Proof.
  intros H. unfold Json.dumps, bind.
  assert (E : Json.encode_items d = Raise TypeError).
  { induction d as [|[k v] d IH]; [inversion H|].
    cbn [Json.encode_items]. unfold Json.encode_item, bind. cbn [fst snd].
    destruct v as [|[|]|n|f|t|]; cbn [Json.encode_value];
      try reflexivity;
      (rewrite IH; [reflexivity|]);
      cbn [fmap list_fmap snd] in H; apply elem_of_cons in H as [H|H];
      first [discriminate | exact H]. }
  rewrite E. reflexivity.
Qed.

(** X9.  A fix that cannot be written as JSON, because one of its
    fields holds an object the encoder does not know, is skipped: the
    error is logged, nothing is written to the peer, the session stays
    open, and after the sleep the daemon polls again. *)
Theorem unwritable_fix_skipped (m : machine) (r : gmap string pyval)
    (lat lon : pyval) :
  at_ m = AtPoll →
  running (self (state m)) = true →
  is_Some (gps_session (self (state m))) →
  is_Some (client_sock (self (state m))) →
  r !! "class" = Some (PStr (cps "TPV")) →
  r !! "lat" = Some lat → r !! "lon" = Some lon →
  PObject ∈ (gps_record r lat lon).*2 →
  let s' := St (self (state m))
               (with_log ((LError, MsgSendError) :: log (os (state m)))
                  (os (state m))) in
  step m (EvPoll (Done r)) = Machine AtErrSleep s' ∧
  step (Machine AtErrSleep s') (EvWake (Done tt)) = Machine AtPoll s'.
Proof.
  destruct m as [p [[lf pf ss cs gs rn ch] w]]. cbn.
  intros -> -> Hg [cfd ->] Hc Hlat Hlon Hobj. split.
  - unfold_step.
    rewrite (get_gps_data_fix r lat lon) by assumption. cbn.
    rewrite dumps_object by exact Hobj. reflexivity.
  - unfold_step. reflexivity.
Qed.

Lemma unwritable_fix_skipped_witness :
  at_ (step (steps (start_daemon w_boot) (take 3 sample_run))
         (EvPoll (Done (<["lat" := PObject]> sample_fix)))) = AtErrSleep.
Proof.
  destruct (unwritable_fix_skipped
              (steps (start_daemon w_boot) (take 3 sample_run))
              (<["lat" := PObject]> sample_fix) PObject
              (PFloat (FFinite [F2; FDot; F3; F5]))) as [H _].
  - reflexivity.
  - reflexivity.
  - vm_compute. eauto.
  - vm_compute. eauto.
  - reflexivity.
  - reflexivity.
  - reflexivity.
  - cbn. rewrite !elem_of_cons. auto.
  - rewrite H. reflexivity.
Defined.

(** X10.  An [accept()] that raises does not stop the daemon: the error
    is logged, no socket is opened, [running] stays set, and after the
    sleep of one second the daemon is blocked in [accept()] again. *)
Theorem accept_error_retried (m : machine) (sfd : nat) (e : exn) :
  at_ m = AtAccept →
  running (self (state m)) = true →
  server_sock (self (state m)) = Some sfd →
  is_Some (open_socks (os (state m)) !! sfd) →
  is_Exception e = true →
  let s' := St (self (state m))
               (with_log ((LError, MsgConnectionError) :: (LInfo, MsgWaiting)
                            :: log (os (state m)))
                  (os (state m))) in
  step m (EvAccept (Failed e)) = Machine AtSleep1 s' ∧
  step (Machine AtSleep1 s') (EvWake (Done tt)) = Machine AtAccept s'.
Proof.
  destruct m as [p [[lf pf ss cs gs rn ch] w]]. cbn.
  intros -> -> -> Hopen He. split.
  - unfold_step. cbn. unfold is_open. cbn.
    rewrite bool_decide_eq_true_2 by exact Hopen. cbn.
    rewrite He. reflexivity.
  - unfold_step. reflexivity.
Qed.

Lemma accept_error_retried_witness :
  at_ (step (steps (start_daemon w_boot) (take 2 sample_run))
         (EvAccept (Failed OSError))) = AtSleep1.
Proof.
  destruct (accept_error_retried
              (steps (start_daemon w_boot) (take 2 sample_run))
              3%nat OSError) as [H _].
  - reflexivity.
  - reflexivity.
  - reflexivity.
  - vm_compute. eauto.
  - reflexivity.
  - rewrite H. reflexivity.
Defined.

(** X11.  Only the server socket is fatal to the startup.  When it
    listens, the daemon reaches [accept()] with [running] set, its PID
    file written and the listening socket open, whether or not the
    radio could be made discoverable, the service record registered and
    the location source opened; the last two only show in the service
    record and in [gps_session]. *)
Theorem startup_needs_only_the_server (w : world) (pid : Z) (a : setup) :
  bt_result a = BtListening →
  let m := steps (start_daemon w) [EvDaemonize (Forked pid); EvSetup (Done a)] in
  at_ m = AtAccept ∧
  running (self (state m)) = true ∧
  files (os (state m)) !! pid_file (self (state m))
    = Some (str_int pid ++ nl)%string ∧
  server_sock (self (state m)) = Some (next_sock w) ∧
  open_socks (os (state m)) = <[next_sock w := Made]> (open_socks w) ∧
  client_sock (self (state m)) = None ∧
  gps_session (self (state m)) = (if gps_ok a then Some tt else None) ∧
  sdp_registered (os (state m))
    = match sdp_result a with
      | SdpAdded => true
      | SdpRefused => false
      | SdpToolFails => sdp_registered w
      end.
Proof.
  destruct a as [d b sd g]. cbn [bt_result gps_ok sdp_result].
  intros ->. cbn [steps foldl]. unfold start_daemon. unfold_step.
  destruct d, sd, g; cbn; repeat split; apply lookup_insert_eq.
Qed.

Lemma startup_needs_only_the_server_witness :
  at_ (steps (start_daemon w_boot)
         [EvDaemonize (Forked 4242);
          EvSetup (Done (Setup false BtListening SdpToolFails false))])
  = AtAccept.
Proof.
  apply (startup_needs_only_the_server w_boot 4242
           (Setup false BtListening SdpToolFails false)).
  reflexivity.
Defined.

(** One step of a daemon without a session with the source. *)
Lemma step_mute (m : machine) (e : event) :
  mute m →
  mute (step m e) ∧ wire (os (state (step m e))) = wire (os (state m)).
Proof.
  destruct m as [p [[lf pf ss cs gs rn ch] w]]. intros [Hg Hp].
  cbn in Hg, Hp. subst gs.
  destruct p; try contradiction;
    destruct e; try (split; [split; [reflexivity|exact I]|reflexivity]);
    unfold_step.
  - destruct ss as [sfd|]; cbn;
      [|split; [split; [reflexivity|exact I]|reflexivity]].
    unfold is_open. cbn.
    destruct (bool_decide (is_Some (open_socks w !! sfd))); cbn;
      [|split; [split; [reflexivity|exact I]|reflexivity]].
    destruct o as [peer|x|n c]; rewrite ?signal_handler_eq; cbn;
      try (destruct (is_Exception x)); cbn; destruct rn; cbn;
      (split; [split; [reflexivity|exact I]|reflexivity]).
  - destruct o as [[]|x|n c]; rewrite ?signal_handler_eq; cbn;
      try (destruct (is_Exception x)); cbn; destruct rn, cs; cbn;
      (split; [split; [reflexivity|exact I]|reflexivity]).
  - destruct o as [[]|x|n c]; rewrite ?signal_handler_eq; cbn;
      destruct rn, cs; cbn;
      (split; [split; [reflexivity|exact I]|reflexivity]).
  - destruct o as [[]|x|n c]; rewrite ?signal_handler_eq; cbn;
      destruct rn; cbn;
      (split; [split; [reflexivity|exact I]|reflexivity]).
Qed.

Lemma steps_mute (evs : list event) (m : machine) :
  mute m → wire (os (state (steps m evs))) = wire (os (state m)).
Proof.
  revert m. induction evs as [|e evs IH]; intros m H; [reflexivity|].
  destruct (step_mute m e H) as [H1 Hw].
  change (steps m (e :: evs)) with (steps (step m e) evs).
  rewrite (IH _ H1). exact Hw.
Qed.

(** X12.  When the location source cannot be opened at startup, the
    daemon still serves peers but is mute for good: [gps_session] stays
    [None], every poll fails inside [get_gps_data], and whatever
    happens afterwards, peers connecting and reports arriving included,
    nothing is ever written to a peer. *)
Theorem no_source_no_record (w : world) (pid : Z) (a : setup)
    (evs : list event) :
  gps_ok a = false →
  wire (os (state (steps (start_daemon w)
                     (EvDaemonize (Forked pid) :: EvSetup (Done a) :: evs))))
  = wire w.
Proof.
  intros Hg.
  change (steps (start_daemon w)
            (EvDaemonize (Forked pid) :: EvSetup (Done a) :: evs))
    with (steps (steps (start_daemon w)
                   [EvDaemonize (Forked pid); EvSetup (Done a)]) evs).
  assert (H : mute (steps (start_daemon w)
                      [EvDaemonize (Forked pid); EvSetup (Done a)]) ∧
              wire (os (state (steps (start_daemon w)
                      [EvDaemonize (Forked pid); EvSetup (Done a)])))
              = wire w).
  { destruct a as [d b sd g]. cbn in Hg. subst g.
    cbn [steps foldl]. unfold start_daemon. unfold_step.
    destruct d, b, sd; cbn; (split; [split; [reflexivity|exact I]|reflexivity]). }
  destruct H as [Hm Hw]. rewrite (steps_mute evs _ Hm). exact Hw.
Qed.

Lemma no_source_no_record_witness :
  wire (os (state (steps (start_daemon w_boot)
                     (EvDaemonize (Forked 4242)
                      :: EvSetup (Done (Setup true BtListening SdpAdded false))
                      :: [EvAccept (Done "AA"); EvPoll (Done sample_fix);
                          EvWake (Done tt)]))))
  = wire w_boot.
Proof.
  apply (no_source_no_record w_boot 4242
           (Setup true BtListening SdpAdded false)).
  reflexivity.
Defined.

(** One fix, polled, sent and slept on. *)
Lemma send_one (t : tracker) (w : world) (fd : nat)
    (r : gmap string pyval) (data : list byte) :
  running t = true → is_Some (gps_session t) → client_sock t = Some fd →
  is_Some (open_socks w !! fd) →
  r !! "class" = Some (PStr (cps "TPV")) → payload r = Some data →
  steps (Machine AtPoll (St t w)) (sends [r])
  = Machine AtPoll (St t (with_wire ((fd, data) :: wire w) w)).
Proof.
  destruct t as [lf pf ss cs gs rn ch].
  cbn [running gps_session client_sock].
  intros -> Hg -> Hopen Hc Hp. unfold payload in Hp.
  destruct (r !! "lat") as [lat|] eqn:Elat; [|discriminate].
  destruct (r !! "lon") as [lon|] eqn:Elon; [|discriminate].
  destruct (Json.dumps (gps_record r lat lon)) as [body|] eqn:Ed;
    [|discriminate].
  destruct (Json.encode_utf8 (body ++ cps nl)) as [bytes|] eqn:Ee;
    [|discriminate].
  injection Hp as <-.
  change (steps (Machine AtPoll (St (Tracker_ lf pf ss (Some fd) gs true ch) w))
            (sends [r]))
    with (step
            (step
               (step (Machine AtPoll
                        (St (Tracker_ lf pf ss (Some fd) gs true ch) w))
                  (EvPoll (Done r)))
               (EvSend (Done tt)))
            (EvWake (Done tt))).
  assert (E1 : step (Machine AtPoll (St (Tracker_ lf pf ss (Some fd) gs true ch) w))
                 (EvPoll (Done r))
               = Machine (AtSend (body ++ cps nl))
                   (St (Tracker_ lf pf ss (Some fd) gs true ch) w)).
  { unfold_step. rewrite (get_gps_data_fix r lat lon) by assumption.
    change (gps_record r lat lon)
      with (("type", PStr (cps "gps")) :: tl (gps_record r lat lon)) at 1.
    cbn [truthy andb]. rewrite bool_decide_eq_true_2 by eauto.
    cbn [default from_option id]. rewrite Ed. reflexivity. }
  rewrite E1. clear E1.
  assert (E2 : step (Machine (AtSend (body ++ cps nl))
                       (St (Tracker_ lf pf ss (Some fd) gs true ch) w))
                 (EvSend (Done tt))
               = Machine AtSleep2
                   (St (Tracker_ lf pf ss (Some fd) gs true ch)
                       (with_wire ((fd, bytes) :: wire w) w))).
  { unfold_step. rewrite Ee. cbn. unfold sock_send, is_open.
    rewrite bool_decide_eq_true_2 by exact Hopen. reflexivity. }
  rewrite E2. clear E2. unfold_step. reflexivity.
Qed.

(** X13.  Fixes are sent one record each, in the order they arrive:
    over a span of fixes whose sends succeed, the wire grows by exactly
    one payload per fix, the payload of that fix, the latest first, and
    the daemon is back at the poll with nothing else changed. *)
Theorem fixes_sent_in_order (t : tracker) (w : world) (fd : nat)
    (rs : list (gmap string pyval)) (datas : list (list byte)) :
  running t = true → is_Some (gps_session t) → client_sock t = Some fd →
  is_Some (open_socks w !! fd) →
  Forall2 (λ r d, r !! "class" = Some (PStr (cps "TPV")) ∧
                  payload r = Some d) rs datas →
  steps (Machine AtPoll (St t w)) (sends rs)
  = Machine AtPoll
      (St t (with_wire (((λ d, (fd, d)) <$> reverse datas) ++ wire w) w)).
Proof.
  intros Hr Hg Hc Hopen Hall. revert w Hopen.
  induction Hall as [|r d rs ds [Hcls Hp] _ IH]; intros w Hopen.
  - destruct w; reflexivity.
  - change (sends (r :: rs)) with (sends [r] ++ sends rs).
    unfold steps in *. rewrite foldl_app.
    pose proof (send_one t w fd r d Hr Hg Hc Hopen Hcls Hp) as E.
    unfold steps in E. rewrite E.
    rewrite (IH (with_wire ((fd, d) :: wire w) w)) by exact Hopen.
    rewrite reverse_cons, fmap_app, <- app_assoc. reflexivity.
Qed.

Lemma fixes_sent_in_order_witness :
  ∃ d, payload sample_fix = Some d ∧
       steps (Machine AtPoll (St t_serving w_serving))
         (sends [sample_fix; sample_fix])
       = Machine AtPoll
           (St t_serving (with_wire [(4%nat, d); (4%nat, d)] w_serving)).
Proof.
  destruct (payload sample_fix) as [d|] eqn:E; [|vm_compute in E; discriminate].
  exists d. split; [reflexivity|].
  apply (fixes_sent_in_order t_serving w_serving 4%nat
           [sample_fix; sample_fix] [d; d]).
  - reflexivity.
  - cbn. eauto.
  - reflexivity.
  - vm_compute. eauto.
  - repeat constructor; assumption.
Defined.

(** X1.  The PID record round trip: whatever the process id, the file
    [daemonize] writes, the decimal digits of the id and a line feed,
    is read back by [int(f.read().strip())], as [stop_daemon] and
    [status_daemon] read it, as that same id. *)
Theorem pid_record_round_trip (w : world) (pid : Z) :
  let m := step (start_daemon w) (EvDaemonize (Forked pid)) in
  ∃ content,
    read_file default_pid_file (os (state m)) = Ret content ∧
    int (strip content) = Ret pid.
Proof.
  exists (str_int pid ++ nl)%string. split; [|apply read_back].
  unfold start_daemon. unfold_step. cbn. unfold read_file. cbn.
  rewrite lookup_insert_eq. reflexivity.
Qed.

(** X14.  After a start whose server opens, with the daemon blocked in
    [accept()] and its process alive, the status command reports the
    daemon as running under the process id [daemonize] recorded, and
    changes nothing but the standard output; a stop would signal that
    same process id. *)
Theorem status_after_start (w : world) (pid : Z) (a : setup) (r : reaction) :
  bt_result a = BtListening →
  0 < pid < 2 ^ 31 →
  procs w !! pid = Some r →
  let w' := os (state (steps (start_daemon w)
                         [EvDaemonize (Forked pid); EvSetup (Done a)])) in
  status_daemon default_pid_file w'
    = (Ret tt, print OutLogFile (print (OutRunning pid) w')) ∧
  (stop_signal_and_wait default_pid_file w').1 = Ret pid.
Proof.
  intros Hbt Hr Hp w'.
  assert (Hf : files w' !! default_pid_file = Some (str_int pid ++ nl)%string).
  { subst w'. destruct a as [d b sd g]. cbn in Hbt. subst b.
    cbn [steps foldl]. unfold start_daemon. unfold_step.
    destruct d, sd, g; cbn; apply lookup_insert_eq. }
  assert (Hprocs : procs w' = procs w).
  { subst w'. destruct a as [d b sd g]. cbn in Hbt. subst b.
    cbn [steps foldl]. unfold start_daemon. unfold_step.
    destruct d, sd, g; reflexivity. }
  clearbody w'.
  assert (Hrange : (pid <? - 2 ^ 31) || (2 ^ 31 <=? pid) = false).
  { apply orb_false_iff. split; [apply Z.ltb_ge|apply Z.leb_gt]; lia. }
  split.
  - rewrite status_daemon_cases, Hf, read_back, Hrange, Hprocs, Hp.
    reflexivity.
  - unfold stop_signal_and_wait, read_file.
    unfold mbind, ret, lift, of_res, say. rewrite Hf. cbn [fst snd].
    rewrite read_back. cbn. unfold os_kill.
    rewrite Hrange, Hprocs, Hp. reflexivity.
Qed.

Lemma status_after_start_witness :
  (stop_signal_and_wait default_pid_file
     (os (state (steps (start_daemon (with_procs {[ 4242 := Lingers ]} w_boot))
                   [EvDaemonize (Forked 4242);
                    EvSetup (Done (Setup true BtListening SdpAdded true))])))).1
  = Ret 4242.
Proof.
  apply (status_after_start (with_procs {[ 4242 := Lingers ]} w_boot) 4242
           (Setup true BtListening SdpAdded true) Lingers).
  - reflexivity.
  - lia.
  - reflexivity.
Defined.

Lemma main_start (a0 : string) (evs : list event) (w : world) :
  main [a0; "start"] 0 evs w
  = Daemonized (steps (start_daemon (print OutStarting w)) evs).
Proof. reflexivity. Qed.

(** X15.  Nothing guards against a second start.  With the PID file
    naming a live daemon, a [start] as root daemonizes all the same and
    [daemonize] writes its own process id over the record: from then on
    the file reads as the new id, so that stop and status no longer
    reach the first daemon, which was neither probed nor signalled and
    is still alive. *)
Theorem start_overwrites_pid_record (a0 content : string) (w : world)
    (old pid : Z) (r : reaction) :
  files w !! default_pid_file = Some content →
  int (strip content) = Ret old →
  procs w !! old = Some r →
  old ≠ pid →
  ∃ m content',
    main [a0; "start"] 0 [EvDaemonize (Forked pid)] w = Daemonized m ∧
    at_ m = AtRun ∧
    files (os (state m)) !! default_pid_file = Some content' ∧
    int (strip content') = Ret pid ∧
    int (strip content') ≠ Ret old ∧
    procs (os (state m)) !! old = Some r ∧
    pending (os (state m)) = pending w.
Proof.
  intros Hf Hi Hp Hne. rewrite main_start.
  eexists. exists (str_int pid ++ nl)%string.
  split; [reflexivity|]. split; [reflexivity|].
  split; [apply lookup_insert_eq|].
  rewrite read_back. repeat split; try assumption. congruence.
Qed.

Lemma start_overwrites_pid_record_witness :
  ∃ m content',
    main ["daemon_bt_gps.py"; "start"] 0 [EvDaemonize (Forked 4242)]
      w_lingering = Daemonized m ∧
    files (os (state m)) !! default_pid_file = Some content' ∧
    int (strip content') = Ret 4242.
Proof.
  destruct (start_overwrites_pid_record "daemon_bt_gps.py"
              ("77" ++ nl)%string w_lingering 77 4242 Lingers)
    as (m & c & H & _ & Hf & Hi & _).
  - reflexivity.
  - reflexivity.
  - reflexivity.
  - lia.
  - exists m, c. repeat split; assumption.
Defined.

(** X16.  When a fork fails, the start ends there: the failure is
    logged, the process exits with status 1 and stays so, and neither a
    PID file nor a socket has been made. *)
Theorem fork_failure_leaves_nothing (a0 : string) (w : world) (o : fork)
    (evs : list event) :
  (∀ pid, o ≠ Forked pid) →
  ∃ m, main [a0; "start"] 0 (EvDaemonize o :: evs) w = Daemonized m ∧
       at_ m = Exited 1 ∧
       files (os (state m)) = files w ∧
       open_socks (os (state m)) = open_socks w ∧
       ∃ msg, log (os (state m)) = (LError, msg) :: log w.
Proof.
  intros Ho. rewrite main_start.
  change (steps (start_daemon (print OutStarting w)) (EvDaemonize o :: evs))
    with (steps (step (start_daemon (print OutStarting w)) (EvDaemonize o))
            evs).
  destruct o as [| |pid]; [| |exfalso; eapply Ho; reflexivity];
    unfold start_daemon; advance ltac:(fun E => idtac);
    rewrite exited_absorbing; eexists; (split; [reflexivity|]);
    repeat split; eauto.
Qed.

Lemma fork_failure_leaves_nothing_witness :
  ∃ m, main ["daemon_bt_gps.py"; "start"] 0
         [EvDaemonize SecondForkFails; EvWake (Done tt)] w_boot
       = Daemonized m ∧ at_ m = Exited 1.
Proof.
  destruct (fork_failure_leaves_nothing "daemon_bt_gps.py" w_boot
              SecondForkFails [EvWake (Done tt)]) as (m & H & Hat & _).
  - intros pid. discriminate.
  - exists m. split; assumption.
Defined.

(** X17.  [cleanup] touches nothing but its own: every file other than
    the PID file, every socket other than the client and the server
    socket, the process table, the pending signals and what was written
    to the peers are what they were. *)
Theorem cleanup_frame (sdptool : bool) (s : st) :
  let s' := (cleanup sdptool s).2 in
  (∀ path, path ≠ pid_file (self s) →
           files (os s') !! path = files (os s) !! path) ∧
  (∀ fd, client_sock (self s) ≠ Some fd → server_sock (self s) ≠ Some fd →
         open_socks (os s') !! fd = open_socks (os s) !! fd) ∧
  procs (os s') = procs (os s) ∧
  pending (os s') = pending (os s) ∧
  wire (os s') = wire (os s).
Proof.
  cbv zeta. rewrite cleanup_eq. cbn. repeat split.
  - intros path Hne. apply lookup_delete_ne. congruence.
  - intros fd Hc Hs.
    destruct (server_sock (self s)) as [sfd|],
             (client_sock (self s)) as [cfd|]; cbn;
      rewrite ?lookup_delete_ne by congruence; reflexivity.
Qed.

End DaemonMore.
